(** * One-day OIS forwards: a model of [ois_curves.py]

    The script builds, per currency, a discount curve from overnight-index
    swap quotes with QuantLib and reads a daily series of one-day forward
    rates off it.  This development embeds the function [fwd_curve] and the
    currency loop of the script, and states what they do with failures,
    with the tenor columns, with the extraction schedule and with the
    process-wide state they touch.

    Numbers that Python holds as floats are modelled as real numbers: the
    statements below are about the real-valued reading of the arithmetic. *)

From Stdlib Require Import ZArith List String Ascii Bool Reals Lia.
From Stdlib Require Import Permutation.
Import ListNotations.

Local Open Scope string_scope.
Local Open Scope Z_scope.

(** ** Python values and control flow *)

Module Py.

(** The exceptions that can leave the modelled code. [exit()] raises
    [SystemExit]; QuantLib's bindings turn every library error into a
    [RuntimeError] carrying the library's message. *)
Inductive exn : Type :=
  | SystemExit
  | ValueError
  | IndexError
  | TypeError
  | RuntimeError (what : string).

Inductive outcome (A : Type) : Type :=
  | Return (a : A)
  | Raise (e : exn).
Arguments Return {A} a.
Arguments Raise {A} e.

(** [datetime.datetime], by its fields. *)
Record datetime : Type := mk_datetime {
  year : Z; month : Z; day : Z;
  hour : Z; minute : Z; second : Z; microsecond : Z
}.

(** [datetime(y, m, d)]: the time of day defaults to midnight. *)
Definition datetime_ymd (y m d : Z) : datetime :=
  mk_datetime y m d 0 0 0 0.

(** Comparison of two datetimes: field by field, most significant first. *)
Fixpoint lex_ltb (a b : list Z) : bool :=
  match a, b with
  | x :: a', y :: b' => (x <? y) || ((x =? y) && lex_ltb a' b')
  | _, _ => false
  end.

Definition fields (t : datetime) : list Z :=
  [year t; month t; day t; hour t; minute t; second t; microsecond t].

Definition datetime_ltb (s t : datetime) : bool :=
  lex_ltb (fields s) (fields t).

(** [str.upper], on the ASCII letters.  The script compares the result
    with the one-letter strings D, W, M and Y only, and no character
    outside ASCII upper-cases to one of those. *)
Definition upper_ascii (c : ascii) : ascii :=
  let n := nat_of_ascii c in
  if (Nat.leb 97 n && Nat.leb n 122)%bool then ascii_of_nat (n - 32) else c.

Fixpoint upper (s : string) : string :=
  match s with
  | EmptyString => EmptyString
  | String c s' => String (upper_ascii c) (upper s')
  end.

(** A cell of the [Term] column as [terms[i]] hands it to [int]: an
    integer when pandas read the column as numbers, a string when it read
    it as text, a NaN where the cell was empty. *)
Inductive cell : Type :=
  | CInt (n : Z)
  | CStr (s : string)
  | CNaN.

Definition is_space (c : ascii) : bool :=
  let n := nat_of_ascii c in
  (Nat.eqb n 32 || (Nat.leb 9 n && Nat.leb n 13) || (Nat.leb 28 n && Nat.leb n 31))%bool.

Definition is_digit (c : ascii) : bool :=
  let n := nat_of_ascii c in (Nat.leb 48 n && Nat.leb n 57)%bool.

Definition digit_value (c : ascii) : Z := Z.of_nat (nat_of_ascii c - 48).

Fixpoint lstrip (cs : list ascii) : list ascii :=
  match cs with
  | c :: cs' => if is_space c then lstrip cs' else cs
  | [] => []
  end.

Definition strip (cs : list ascii) : list ascii :=
  rev (lstrip (rev (lstrip cs))).

(** Decimal digits, with single underscores allowed between two digits. *)
Fixpoint digits (cs : list ascii) (acc : Z) (after_digit : bool) : option Z :=
  match cs with
  | [] => if after_digit then Some acc else None
  | c :: cs' =>
      if is_digit c then digits cs' (10 * acc + digit_value c) true
      else if Ascii.eqb c "_" then
             if after_digit then digits cs' acc false else None
      else None
  end.

Definition int_of_string (s : string) : option Z :=
  match strip (list_ascii_of_string s) with
  | c :: cs =>
      if Ascii.eqb c "-" then option_map Z.opp (digits cs 0 false)
      else if Ascii.eqb c "+" then digits cs 0 false
      else digits (c :: cs) 0 false
  | [] => None
  end.

(** [int(x)] for a cell.  Text is taken to be ASCII: blanks around the
    number, an optional sign, decimal digits. *)
Definition int (x : cell) : outcome Z :=
  match x with
  | CInt n => Return n
  | CStr s => match int_of_string s with
              | Some n => Return n
              | None => Raise ValueError
              end
  | CNaN => Raise ValueError
  end.

End Py.

(** ** The QuantLib calls of the script *)

Module ql.

(** [ql.Date], by the three fields the script reads back from it. *)
Record Date : Type := mk_Date { year : Z; month : Z; dayOfMonth : Z }.

Definition Date_ltb (a b : Date) : bool :=
  Py.lex_ltb [year a; month a; dayOfMonth a] [year b; month b; dayOfMonth b].

(** [ql.Date().from_date(d)] *)
Definition from_date (d : Py.datetime) : Date :=
  mk_Date (Py.year d) (Py.month d) (Py.day d).

Inductive TimeUnit : Type := Days | Weeks | Months | Years.

Record Period : Type := mk_Period { length : Z; units : TimeUnit }.

Inductive Calendar : Type :=
  | TARGET | UnitedKingdom | UnitedStates | Japan | Australia | Canada.

Inductive DayCounter : Type := Actual360 | Actual365Fixed.

Inductive Currency : Type :=
  | EURCurrency | GBPCurrency | USDCurrency
  | JPYCurrency | AUDCurrency | CADCurrency.

Inductive Compounding : Type :=
  | Simple | Compounded | Continuous | SimpleThenCompounded.

Record OvernightIndex : Type := mk_OvernightIndex {
  familyName : string;
  fixingDays : Z;
  currency : Currency;
  fixingCalendar : Calendar;
  dayCounter : DayCounter
}.

(** [ql.Settings.instance()]: the process-wide settings object. *)
Record Settings : Type := mk_Settings { evaluationDate : Date }.

(** What a library call gives back: a value, or the message of the error
    it throws (a [RuntimeError] on the Python side). *)
Inductive result (A : Type) : Type :=
  | Ok (a : A)
  | Error (what : string).
Arguments Ok {A} a.
Arguments Error {A} what.

Definition bind {A B : Type} (r : result A) (k : A -> result B) : result B :=
  match r with
  | Ok a => k a
  | Error what => Error what
  end.

Fixpoint map_result {A B : Type} (f : A -> result B) (l : list A)
  : result (list B) :=
  match l with
  | [] => Ok []
  | a :: l' =>
      bind (f a) (fun b => bind (map_result f l') (fun bs => Ok (b :: bs)))
  end.

(** The library itself is not part of the script.  Its calls are the
    fields of this record; those that consult the evaluation date take
    the settings object they read it from. *)
Record Library : Type := mk_Library {
  RateHelper : Type;
  YieldTermStructure : Type;
  OISRateHelper :
    Settings -> Z -> Period -> R -> OvernightIndex -> result RateHelper;
  PiecewiseLogCubicDiscount :
    Settings -> Z -> Calendar -> list RateHelper -> DayCounter ->
    result YieldTermStructure;
  referenceDate : Settings -> YieldTermStructure -> result Date;
  advance : Calendar -> Date -> Z -> TimeUnit -> result Date;
  MakeSchedule : Date -> Date -> Period -> result (list Date);
  forwardRate :
    Settings -> YieldTermStructure -> Date -> Date -> DayCounter ->
    Compounding -> result R;
  discount : Settings -> YieldTermStructure -> Date -> result R;
  yearFraction : DayCounter -> Date -> Date -> R
}.

(** [ql.Period(n, unit)].  The C++ side takes a 32-bit integer; the
    binding refuses anything else. *)
Definition Period_of (n : Z) (u : TimeUnit) : Py.outcome Period :=
  if (-2147483648 <=? n) && (n <=? 2147483647)
  then Py.Return (mk_Period n u)
  else Py.Raise Py.TypeError.

End ql.

Notation "x <-- r ;; k" := (ql.bind r (fun x => k))
  (at level 61, r at next level, right associativity).

(** ** Process-wide state: QuantLib's settings and the log *)

Inductive level : Type := DEBUG | INFO | ERROR | CRITICAL.

Inductive logarg : Type :=
| AStr (s : string)
| ADate (d : Py.datetime)
| AInt (n : Z).

Record LogRecord : Type := mk_LogRecord {
  levelname : level;
  msg : string;
  args : list logarg
}.

Record World : Type := mk_World {
  settings : ql.Settings;
  log : list LogRecord
}.

(** A statement of the script: it may change the world, and it either
    yields a value or raises.  What was written before an exception stays
    written. *)
Definition M (A : Type) : Type := World -> Py.outcome A * World.

Definition ret {A : Type} (a : A) : M A := fun w => (Py.Return a, w).

Definition raise {A : Type} (e : Py.exn) : M A := fun w => (Py.Raise e, w).

Definition mbind {A B : Type} (c : M A) (k : A -> M B) : M B :=
  fun w =>
    match c w with
    | (Py.Return a, w') => k a w'
    | (Py.Raise e, w') => (Py.Raise e, w')
    end.

Notation "x <- c ;; k" := (mbind c (fun x => k))
  (at level 61, c at next level, right associativity).
Notation "c ;; k" := (mbind c (fun _ => k))
  (at level 61, right associativity).

Definition lift {A : Type} (o : Py.outcome A) : M A := fun w => (o, w).

(** [exit()] *)
Definition exit {A : Type} : M A := raise Py.SystemExit.

(** [logging.info], [logging.error], [logging.fatal] *)
Definition logging (l : level) (fmt : string) (a : list logarg) : M unit :=
  fun w => (Py.Return tt, mk_World (settings w) (log w ++ [mk_LogRecord l fmt a])).

(** [ql.Settings.instance().evaluationDate = d] *)
Definition set_evaluationDate (d : ql.Date) : M unit :=
  fun w => (Py.Return tt, mk_World (ql.mk_Settings d) (log w)).

(** A library call made outside any [try]: it reads the settings object,
    and its error surfaces as a [RuntimeError]. *)
Definition ql_call {A : Type} (f : ql.Settings -> ql.result A) : M A :=
  fun w =>
    match f (settings w) with
    | ql.Ok a => (Py.Return a, w)
    | ql.Error what => (Py.Raise (Py.RuntimeError what), w)
    end.

(** [xs[i]] on an array *)
Definition getitem {A : Type} (xs : list A) (i : nat) : M A :=
  match nth_error xs i with
  | Some x => ret x
  | None => raise Py.IndexError
  end.

(** ** The result table *)

(** One row of the frame [fwd_curve] returns. *)
Record ForwardPoint : Type := mk_ForwardPoint {
  Date : Py.datetime;
  Currency : string;
  DateFwd : Py.datetime;
  RateFwd : R;
  Updated : Py.datetime
}.

Record DataFrame : Type := mk_DataFrame {
  columns : list string;
  rows : list ForwardPoint
}.

(** [pd.DataFrame()] *)
Definition pd_DataFrame : DataFrame := mk_DataFrame [] [].

(** ** [fwd_curve] *)

Record Convention : Type := mk_Convention {
  settlement_days : Z;
  calendar : ql.Calendar;
  day_count : ql.DayCounter;
  index : ql.OvernightIndex
}.

Definition convention_of (name : string) (days : Z) (ccy : ql.Currency)
  (cal : ql.Calendar) (dc : ql.DayCounter) : Convention :=
  mk_Convention days cal dc (ql.mk_OvernightIndex name days ccy cal dc).

(** The [if]/[elif] chain on the currency code (lines 28-57); [None] is its
    [else] branch. *)
Definition currency_convention (currency : string) : option Convention :=
  if (currency =? "EUR")%string then
    Some (convention_of "EUR" 2 ql.EURCurrency ql.TARGET ql.Actual360)
  else if (currency =? "GBP")%string then
    Some (convention_of "GBP" 0 ql.GBPCurrency ql.UnitedKingdom ql.Actual365Fixed)
  else if (currency =? "USD")%string then
    Some (convention_of "USD" 2 ql.USDCurrency ql.UnitedStates ql.Actual360)
  else if (currency =? "JPY")%string then
    Some (convention_of "JPY" 2 ql.JPYCurrency ql.Japan ql.Actual365Fixed)
  else if (currency =? "AUD")%string then
    Some (convention_of "AUD" 1 ql.AUDCurrency ql.Australia ql.Actual365Fixed)
  else if (currency =? "CAD")%string then
    Some (convention_of "CAD" 1 ql.CADCurrency ql.Canada ql.Actual365Fixed)
  else None.

(** The [if]/[elif] chain on the upper-cased unit (lines 68-78). *)
Definition time_unit_of (unit_char : string) : option ql.TimeUnit :=
  if (unit_char =? "D")%string then Some ql.Days
  else if (unit_char =? "W")%string then Some ql.Weeks
  else if (unit_char =? "M")%string then Some ql.Months
  else if (unit_char =? "Y")%string then Some ql.Years
  else None.

(** Lines 66-80 of the loop body: from [units[i]] and [terms[i]] to the
    tenor of quote [i]. *)
Definition quote_tenor (terms : list Py.cell) (units : list string) (i : nat)
  : M ql.Period :=
  unit_i <- getitem units i ;;
  let unit_char := Py.upper unit_i in
  time_unit <- match time_unit_of unit_char with
               | Some u => ret u
               | None =>
                   logging CRITICAL "Unexpected time unit found: %s" [AStr unit_i] ;;
                   exit
               end ;;
  term_i <- getitem terms i ;;
  n <- lift (Py.int term_i) ;;
  lift (ql.Period_of n time_unit).

Section Pipeline.

Variable lib : ql.Library.

(** Lines 66-82: the helper built for quote [i]. *)
Definition quote_helper (conv : Convention) (rates : list R)
  (terms : list Py.cell) (units : list string) (i : nat)
  : M (ql.RateHelper lib) :=
  tenor <- quote_tenor terms units i ;;
  rate_i <- getitem rates i ;;
  ql_call (fun s =>
    ql.OISRateHelper lib s (settlement_days conv) tenor (rate_i / 100)%R (index conv)).

(** The loop [for i in range(len(rates))] over the indices still to visit,
    [ois_helpers] being the list built so far. *)
Fixpoint helpers_loop (conv : Convention) (rates : list R)
  (terms : list Py.cell) (units : list string) (range : list nat)
  (ois_helpers : list (ql.RateHelper lib)) : M (list (ql.RateHelper lib)) :=
  match range with
  | [] => ret ois_helpers
  | i :: range' =>
      helper <- quote_helper conv rates terms units i ;;
      helpers_loop conv rates terms units range' (ois_helpers ++ [helper])
  end.

(** [datetime(d.year(), d.month(), d.dayOfMonth())] *)
Definition to_datetime (d : ql.Date) : Py.datetime :=
  Py.datetime_ymd (ql.year d) (ql.month d) (ql.dayOfMonth d).

(** The one-day forward of line 90 for one schedule date. *)
Definition rate_fwd (s : ql.Settings) (conv : Convention)
  (curve : ql.YieldTermStructure lib) (d : ql.Date) : ql.result R :=
  d1 <-- ql.advance lib (calendar conv) d 1 ql.Days ;;
  r <-- ql.forwardRate lib s curve d d1 (day_count conv) ql.Continuous ;;
  ql.Ok (r * 100)%R.

(** Lines 92-100: the frame assembled from the schedule and the rates. *)
Definition assemble (ref_date : ql.Date) (currency : string)
  (now : Py.datetime) (all_days : list ql.Date) (rates_fwd : list R)
  : DataFrame :=
  mk_DataFrame ["Date"; "Currency"; "DateFwd"; "RateFwd"; "Updated"]
    (map (fun dr : ql.Date * R =>
            mk_ForwardPoint (to_datetime ref_date) currency
              (to_datetime (fst dr)) (snd dr) now)
         (combine all_days rates_fwd)).

(** The body of the [try] (lines 86-100).  [now] is what [datetime.now()]
    returns on line 98; the reference date is the same at each of its three
    reads, so it is read once here. *)
Definition try_body (s : ql.Settings) (conv : Convention)
  (ois_helpers : list (ql.RateHelper lib)) (currency : string)
  (now : Py.datetime) : ql.result DataFrame :=
  curve <-- ql.PiecewiseLogCubicDiscount lib s 0 (calendar conv) ois_helpers
              (day_count conv) ;;
  ref_date <-- ql.referenceDate lib s curve ;;
  last_day <-- ql.advance lib (calendar conv) ref_date 3 ql.Years ;;
  all_days <-- ql.MakeSchedule lib ref_date last_day (ql.mk_Period 1 ql.Days) ;;
  rates_fwd <-- ql.map_result (rate_fwd s conv curve) all_days ;;
  ql.Ok (assemble ref_date currency now all_days rates_fwd).

(** [try: ... except RuntimeError as e: ...] around [try_body]. *)
Definition try_except (conv : Convention)
  (ois_helpers : list (ql.RateHelper lib)) (currency : string)
  (now : Py.datetime) : M DataFrame :=
  fun w =>
    match try_body (settings w) conv ois_helpers currency now with
    | ql.Ok forwards => ret forwards w
    | ql.Error e =>
        (logging ERROR "Failed to build forward curve: %s" [AStr e] ;;
         ret pd_DataFrame) w
    end.

Definition fwd_curve (rates : list R) (terms : list Py.cell)
  (units : list string) (eval_date : Py.datetime) (currency : string)
  (now : Py.datetime) : M DataFrame :=
  set_evaluationDate (ql.from_date eval_date) ;;
  logging INFO "Building OIS curve for %s on %s" [AStr currency; ADate eval_date] ;;
  conv <- match currency_convention currency with
          | Some c => ret c
          | None =>
              logging CRITICAL "Unexpected OIS currency %s" [AStr currency] ;;
              exit
          end ;;
  ois_helpers <- helpers_loop conv rates terms units
                   (seq 0 (List.length rates)) [] ;;
  try_except conv ois_helpers currency now.

End Pipeline.

(** ** The currency loop of the script (lines 158-182) *)

Module Script.

(** A row of [df]: one quote of the day joined with its config line.  The
    vendor query covers the single day [target_date], so [df] holds one
    date and the [Date] column is left out; a missing price is [None]. *)
Record QuoteRow : Type := mk_QuoteRow {
  Ticker : string;
  Value : option R;
  Currency : string;
  Term : Py.cell;
  Unit : string
}.

(** A row of [config_update_time]. *)
Record UpdateTime : Type := mk_UpdateTime {
  ut_Currency : string;
  FirstUpdate : Z;
  LastUpdate : Z
}.

(** [x.isnull().sum()] over the [Value] column. *)
Definition isnull_sum (c_df : list QuoteRow) : Z :=
  Z.of_nat (List.length (filter (fun r => match Value r with
                                          | None => true
                                          | Some _ => false
                                          end) c_df)).

(** [c_df["Value"].values], read when no value is null. *)
Definition values (c_df : list QuoteRow) : list R :=
  flat_map (fun r => match Value r with
                     | Some v => [v]
                     | None => []
                     end) c_df.

(** [df[df["Currency"] == ccy]] *)
Definition quotes_of (df : list QuoteRow) (ccy : string) : list QuoteRow :=
  filter (fun r => (Currency r =? ccy)%string) df.

(** [config_update_time[config_update_time["Currency"] == ccy]] *)
Definition window_of (config_update_time : list UpdateTime) (ccy : string)
  : list UpdateTime :=
  filter (fun u => (ut_Currency u =? ccy)%string) config_update_time.

(** [a.to_numpy()[0]] and [a.values[0]] *)
Definition first {A : Type} (a : list A) : M A := getitem a 0.

Section Loop.

Variable lib : ql.Library.
Variable df : list QuoteRow.
Variable config_update_time : list UpdateTime.
Variable current_hour : Z.
Variable target_date : Py.datetime.

(** [clock ccy] is what [datetime.now()] returns inside the [fwd_curve]
    call made for [ccy]. *)
Variable clock : string -> Py.datetime.

(** One turn of [for ccy in currencies]. *)
Definition turn (ccy : string) (frames : list DataFrame) : M (list DataFrame) :=
  let c_df := quotes_of df ccy in
  let window := window_of config_update_time ccy in
  first_update <- first (map FirstUpdate window) ;;
  last_update <- first (map LastUpdate window) ;;
  logging DEBUG "Checking for %s at %s hours, first update: %s, last_update: %s"
    [AStr ccy; AInt current_hour; AInt first_update; AInt last_update] ;;
  if (first_update <=? current_hour) && (current_hour <? last_update) then
    na_count <- first (match c_df with
                       | [] => []
                       | _ => [isnull_sum c_df]
                       end) ;;
    if 0 <? na_count then
      logging ERROR "Found %s NA data points for %s" [AInt na_count; AStr ccy] ;;
      ret frames
    else
      fwds <- fwd_curve lib (values c_df) (map Term c_df) (map Unit c_df)
                target_date ccy (clock ccy) ;;
      ret (frames ++ [fwds])%list
  else ret frames.

(** The whole loop, over the currencies in the order the set yields them. *)
Fixpoint currency_loop (currencies : list string) (frames : list DataFrame)
  : M (list DataFrame) :=
  match currencies with
  | [] => ret frames
  | ccy :: rest =>
      frames' <- turn ccy frames ;;
      currency_loop rest frames'
  end.

End Loop.

End Script.

(** ** A small executable library

    To run the pipeline on concrete inputs the library calls need a
    definition.  This one keeps the calendar arithmetic of the real calls
    (Gregorian dates, weekends, business-day adjustment to the following
    business day, daily schedules with both ends included) and replaces
    the calibrated curve by a flat one at the first quote's rate, valid
    from its reference date to the longest maturity.  Public holidays are
    left out. *)

Module Demo.

Definition is_leap (y : Z) : bool :=
  (y mod 4 =? 0) && (negb (y mod 100 =? 0) || (y mod 400 =? 0)).

Definition month_length (y m : Z) : Z :=
  if m =? 2 then (if is_leap y then 29 else 28)
  else if (m =? 4) || (m =? 6) || (m =? 9) || (m =? 11) then 30
  else 31.

Definition next_day (d : ql.Date) : ql.Date :=
  let (y, m, dd) := d in
  if dd <? month_length y m then ql.mk_Date y m (dd + 1)
  else if m <? 12 then ql.mk_Date y (m + 1) 1
  else ql.mk_Date (y + 1) 1 1.

(** Days since 1970-01-01. *)
Definition serial (d : ql.Date) : Z :=
  let (y, m, dd) := d in
  let y' := if m <=? 2 then y - 1 else y in
  let era := y' / 400 in
  let yoe := y' - era * 400 in
  let doy := (153 * (if 2 <? m then m - 3 else m + 9) + 2) / 5 + dd - 1 in
  let doe := yoe * 365 + yoe / 4 - yoe / 100 + doy in
  era * 146097 + doe - 719468.

(** 0 is Sunday, 6 is Saturday. *)
Definition weekday (d : ql.Date) : Z := (serial d + 4) mod 7.

Definition isBusinessDay (cal : ql.Calendar) (d : ql.Date) : bool :=
  negb ((weekday d =? 0) || (weekday d =? 6)).

Fixpoint following (cal : ql.Calendar) (fuel : nat) (d : ql.Date) : ql.Date :=
  match fuel with
  | O => d
  | S fuel' => if isBusinessDay cal d then d
               else following cal fuel' (next_day d)
  end.

Definition adjust (cal : ql.Calendar) (d : ql.Date) : ql.Date :=
  following cal 7 d.

Fixpoint add_days (n : nat) (d : ql.Date) : ql.Date :=
  match n with
  | O => d
  | S n' => add_days n' (next_day d)
  end.

Fixpoint add_business_days (cal : ql.Calendar) (n : nat) (d : ql.Date)
  : ql.Date :=
  match n with
  | O => d
  | S n' => add_business_days cal n' (adjust cal (next_day d))
  end.

Definition add_months (d : ql.Date) (n : Z) : ql.Date :=
  let k := ql.year d * 12 + (ql.month d - 1) + n in
  let y := k / 12 in
  let m := k mod 12 + 1 in
  ql.mk_Date y m (Z.min (ql.dayOfMonth d) (month_length y m)).

Definition advance (cal : ql.Calendar) (d : ql.Date) (n : Z) (u : ql.TimeUnit)
  : ql.result ql.Date :=
  if n <? 0 then ql.Error "negative periods are not covered"
  else match u with
       | ql.Days => if n =? 0 then ql.Ok (adjust cal d)
                    else ql.Ok (add_business_days cal (Z.to_nat n) d)
       | ql.Weeks => ql.Ok (adjust cal (add_days (Z.to_nat (7 * n)) d))
       | ql.Months => ql.Ok (adjust cal (add_months d n))
       | ql.Years => ql.Ok (adjust cal (add_months d (12 * n)))
       end.

Fixpoint days_from (fuel : nat) (d last : ql.Date) : list ql.Date :=
  match fuel with
  | O => []
  | S fuel' => if ql.Date_ltb last d then []
               else d :: days_from fuel' (next_day d) last
  end.

Definition MakeSchedule (effective termination : ql.Date) (tenor : ql.Period)
  : ql.result (list ql.Date) :=
  match ql.units tenor with
  | ql.Days =>
      if negb (ql.length tenor =? 1) then
        ql.Error "only daily schedules are covered"
      else if ql.Date_ltb effective termination then
        ql.Ok (days_from (Z.to_nat (serial termination - serial effective + 1))
                 effective termination)
      else ql.Error "effective date later than or equal to termination date"
  | _ => ql.Error "only daily schedules are covered"
  end.

Record RateHelper : Type := mk_RateHelper {
  maturity : ql.Date;
  quote : R
}.

Definition OISRateHelper (s : ql.Settings) (settlement : Z) (tenor : ql.Period)
  (fixedRate : R) (overnightIndex : ql.OvernightIndex)
  : ql.result RateHelper :=
  let cal := ql.fixingCalendar overnightIndex in
  if ql.length tenor <=? 0 then ql.Error "non-positive swap tenor"
  else
    start <-- advance cal (ql.evaluationDate s) settlement ql.Days ;;
    finish <-- advance cal start (ql.length tenor) (ql.units tenor) ;;
    ql.Ok (mk_RateHelper finish fixedRate).

Record Curve : Type := mk_Curve {
  reference : ql.Date;
  maxDate : ql.Date;
  zero : R;
  basis : ql.DayCounter
}.

Definition later (a b : ql.Date) : ql.Date :=
  if ql.Date_ltb a b then b else a.

Definition PiecewiseLogCubicDiscount (s : ql.Settings) (settlement : Z)
  (cal : ql.Calendar) (helpers : list RateHelper) (dc : ql.DayCounter)
  : ql.result Curve :=
  match helpers with
  | [] => ql.Error "no bootstrap helpers given"
  | h :: _ =>
      ref <-- advance cal (ql.evaluationDate s) settlement ql.Days ;;
      ql.Ok (mk_Curve ref (fold_right later ref (map maturity helpers))
               (quote h) dc)
  end.

Definition yearFraction (dc : ql.DayCounter) (d1 d2 : ql.Date) : R :=
  (IZR (serial d2 - serial d1) /
   match dc with
   | ql.Actual360 => 360
   | ql.Actual365Fixed => 365
   end)%R.

Definition discount (s : ql.Settings) (c : Curve) (d : ql.Date)
  : ql.result R :=
  if ql.Date_ltb d (reference c) || ql.Date_ltb (maxDate c) d then
    ql.Error "date outside the curve"
  else ql.Ok (exp (- (zero c * yearFraction (basis c) (reference c) d)))%R.

Definition forwardRate (s : ql.Settings) (c : Curve) (d1 d2 : ql.Date)
  (dc : ql.DayCounter) (comp : ql.Compounding) : ql.result R :=
  match comp with
  | ql.Continuous =>
      df1 <-- discount s c d1 ;;
      df2 <-- discount s c d2 ;;
      ql.Ok ((ln df1 - ln df2) / yearFraction dc d1 d2)%R
  | _ => ql.Error "only continuous compounding is covered"
  end.

Definition lib : ql.Library :=
  ql.mk_Library RateHelper Curve OISRateHelper PiecewiseLogCubicDiscount
    (fun _ c => ql.Ok (reference c)) advance MakeSchedule forwardRate
    discount yearFraction.

(** Worlds and clock readings for the concrete runs. *)
Definition world0 : World :=
  mk_World (ql.mk_Settings (ql.mk_Date 2023 1 2)) [].

Definition t0 : Py.datetime := Py.mk_datetime 2023 3 6 9 30 0 0.
Definition t1 : Py.datetime := Py.mk_datetime 2023 3 6 9 30 7 0.

(** Two EUR quotes, one year and five years, on Monday 2023-03-06. *)
Definition rates : list R := [3.5%R; 3.2%R].
Definition terms : list Py.cell := [Py.CInt 1; Py.CInt 5].
Definition units : list string := ["Y"; "y"].

Definition run : Py.outcome DataFrame * World :=
  fwd_curve lib rates terms units t0 "EUR" t1 world0.

Definition frame : DataFrame :=
  Eval cbv -[exp ln IZR Rdiv Rminus Rmult Ropp Rplus Rinv] in
  match fst run with
  | Py.Return df => df
  | Py.Raise _ => pd_DataFrame
  end.

(** The quotes of one day: EUR as above, an unknown currency, a GBP quote
    with an unknown unit, a JPY quote without a price, a USD quote with an
    empty term. *)
Definition df : list Script.QuoteRow :=
  [ Script.mk_QuoteRow "XXSO1 Curncy" (Some 3.5%R) "XXX" (Py.CInt 1) "Y";
    Script.mk_QuoteRow "EESWE1 Curncy" (Some 3.5%R) "EUR" (Py.CInt 1) "Y";
    Script.mk_QuoteRow "EESWE5 Curncy" (Some 3.2%R) "EUR" (Py.CInt 5) "y";
    Script.mk_QuoteRow "BPSWS1 Curncy" (Some 4.1%R) "GBP" (Py.CInt 1) "X";
    Script.mk_QuoteRow "JYSO1 Curncy" None "JPY" (Py.CInt 1) "Y";
    Script.mk_QuoteRow "USSO1 Curncy" (Some 4.9%R) "USD" (Py.CStr "") "Y" ].

Definition config_update_time : list Script.UpdateTime :=
  [ Script.mk_UpdateTime "XXX" 7 18;
    Script.mk_UpdateTime "EUR" 7 18;
    Script.mk_UpdateTime "GBP" 7 18;
    Script.mk_UpdateTime "JPY" 0 24;
    Script.mk_UpdateTime "USD" 7 18 ].

Definition current_hour : Z := 9.

Definition clock (ccy : string) : Py.datetime := t1.

(** The loop of the script on those quotes. *)
Definition currency_loop (currencies : list string)
  : Py.outcome (list DataFrame) * World :=
  Script.currency_loop lib df config_update_time current_hour t0 clock
    currencies [] world0.

Definition world1 : World :=
  Eval cbv -[exp ln IZR Rdiv Rminus Rmult Ropp Rplus Rinv] in snd run.

End Demo.

(** ** Vocabulary of the statements *)

(** A statement is [tame] when it leaves the settings object as it found
    it and its outcome depends on the world through that object only: the
    log is written, never read. *)
Definition tame {A : Type} (c : M A) : Prop :=
  forall w,
    settings (snd (c w)) = settings w /\
    forall w2, settings w2 = settings w -> fst (c w2) = fst (c w).

(** The world after lines 24-26. *)
Definition started (eval_date : Py.datetime) (currency : string) (w : World)
  : World :=
  mk_World (ql.mk_Settings (ql.from_date eval_date))
    (log w ++ [mk_LogRecord INFO "Building OIS curve for %s on %s"
                 [AStr currency; ADate eval_date]]).

Ltac run_demo := cbv -[exp ln IZR Rdiv Rminus Rmult Ropp Rplus Rinv]; reflexivity.

(** Adjacent elements in strictly increasing order. *)
Fixpoint ascending {A : Type} (ltb : A -> A -> bool) (l : list A) : bool :=
  match l with
  | a :: (b :: _) as l' => ltb a b && ascending ltb l'
  | _ => true
  end.

(** The library's continuously compounded forward rate between two dates:
    the difference of the logs of their discount factors over the year
    fraction between them. *)
Definition continuous_forward (lib : ql.Library) : Prop :=
  forall s c d1 d2 dc r,
    ql.forwardRate lib s c d1 d2 dc ql.Continuous = ql.Ok r ->
    exists df1 df2,
      ql.discount lib s c d1 = ql.Ok df1 /\
      ql.discount lib s c d2 = ql.Ok df2 /\
      r = ((ln df1 - ln df2) / ql.yearFraction lib dc d1 d2)%R.


(** A frame with its timestamp column replaced. *)
Definition restamp (now : Py.datetime) (df : DataFrame) : DataFrame :=
  mk_DataFrame (columns df)
    (map (fun r => mk_ForwardPoint (Date r) (Currency r) (DateFwd r)
                     (RateFwd r) now) (rows df)).

(** A row without its timestamp. *)
Definition unstamped (r : ForwardPoint) : Py.datetime * string * Py.datetime * R :=
  (Date r, Currency r, DateFwd r, RateFwd r).

(** The world after [logging.fatal] on an unknown unit. *)
Definition unit_rejected (u : string) (w : World) : World :=
  mk_World (settings w)
    (log w ++ [mk_LogRecord CRITICAL "Unexpected time unit found: %s" [AStr u]]).

(** The liquidity-window test of line 172, on the first row found for the
    currency. *)
Definition in_window (config_update_time : list Script.UpdateTime)
  (current_hour : Z) (ccy : string) : bool :=
  match Script.window_of config_update_time ccy with
  | u :: _ => (Script.FirstUpdate u <=? current_hour) &&
              (current_hour <? Script.LastUpdate u)
  | [] => false
  end.

(** The world after the debug line of a turn. *)
Definition checked (config_update_time : list Script.UpdateTime)
  (current_hour : Z) (ccy : string) (w : World) : World :=
  match Script.window_of config_update_time ccy with
  | u :: _ =>
      mk_World (settings w)
        (log w ++
         [mk_LogRecord DEBUG
            "Checking for %s at %s hours, first update: %s, last_update: %s"
            [AStr ccy; AInt current_hour; AInt (Script.FirstUpdate u);
             AInt (Script.LastUpdate u)]])
  | [] => w
  end.

(** [fwd_curve] after line 24. *)
Definition after_line_24 (lib : ql.Library) (rates : list R) (terms : list Py.cell)
  (units : list string) (eval_date : Py.datetime) (currency : string)
  (now : Py.datetime) : M DataFrame :=
  logging INFO "Building OIS curve for %s on %s" [AStr currency; ADate eval_date] ;;
  conv <- match currency_convention currency with
          | Some c => ret c
          | None =>
              logging CRITICAL "Unexpected OIS currency %s" [AStr currency] ;;
              exit
          end ;;
  ois_helpers <- helpers_loop lib conv rates terms units
                   (seq 0 (List.length rates)) [] ;;
  try_except lib conv ois_helpers currency now.

(** ** The end of the script (lines 184-218) *)

Module Output.

(** The two exceptions that can stop this part. *)
Inductive exn : Type :=
| ValueError
| KeyError (key : string).

Inductive outcome (A : Type) : Type :=
| Return (a : A)
| Raise (e : exn).
Arguments Return {A} a.
Arguments Raise {A} e.

Definition bind {A B : Type} (o : outcome A) (k : A -> outcome B) : outcome B :=
  match o with
  | Return a => k a
  | Raise e => Raise e
  end.

(** The columns of a concatenation: those of the frames, each once, in
    order of first appearance. *)
Definition add_columns (acc cols : list string) : list string :=
  fold_left (fun acc c => if existsb (String.eqb c) acc then acc
                          else (acc ++ [c])%list) cols acc.

(** [pd.concat(frames)] (line 184) *)
Definition concat (frames : list DataFrame) : outcome DataFrame :=
  match frames with
  | [] => Raise ValueError
  | _ => Return (mk_DataFrame (fold_left add_columns (map columns frames) [])
                   (flat_map rows frames))
  end.

(** One decimal digit and a number on two digits, written in front of a
    string. *)
Definition digit (n : Z) : ascii := ascii_of_nat (48 + Z.to_nat (n mod 10)).

Definition pad2 (n : Z) (rest : string) : string :=
  String (digit (n / 10)) (String (digit n) rest).

(** [strftime] with the formats of the script, for the datetimes a
    datetime column holds: four-digit years and fields in their ranges. *)
Definition strftime_Ymd (t : Py.datetime) (rest : string) : string :=
  pad2 (Py.year t / 100)
    (pad2 (Py.year t mod 100)
       (String "-" (pad2 (Py.month t) (String "-" (pad2 (Py.day t) rest))))).

(** [t.strftime("%Y-%m-%d")] *)
Definition strftime_date (t : Py.datetime) : string := strftime_Ymd t "".

(** [t.strftime("%Y-%m-%d %H:%M:%S")] *)
Definition strftime_seconds (t : Py.datetime) : string :=
  strftime_Ymd t
    (String " " (pad2 (Py.hour t)
       (String ":" (pad2 (Py.minute t) (String ":" (pad2 (Py.second t) "")))))).

(** A row once its three date columns are text (after lines 190-192), which
    is also a row as the csv files hold it. *)
Record Row : Type := mk_Row {
  Date : string;
  Currency : string;
  DateFwd : string;
  RateFwd : R;
  Updated : string
}.

Definition to_text (p : ForwardPoint) : Row :=
  let (date, currency, date_fwd, rate_fwd, updated) := p in
  mk_Row (strftime_date date) currency (strftime_date date_fwd) rate_fwd
    (strftime_seconds updated).

(** [result[key]] as far as it can fail. *)
Definition column (result : DataFrame) (key : string) : outcome unit :=
  if existsb (String.eqb key) (columns result) then Return tt
  else Raise (KeyError key).

(** Lines 190-192.  A frame that has columns has rows, the schedule of a
    built curve being never empty; the frames with columns and no rows are
    not covered. *)
Definition prefer_strings (result : DataFrame) : outcome (list Row) :=
  bind (column result "Date") (fun _ =>
  bind (column result "DateFwd") (fun _ =>
  bind (column result "Updated") (fun _ =>
  Return (map to_text (rows result))))).

(** [max(a, b)] on strings. *)
Definition str_max (a b : string) : string :=
  if String.ltb a b then b else a.

(** [max(x["Updated"])] for the rows [x] of one group. *)
Definition max_Updated (x : list Row) : string :=
  match map Updated x with
  | u :: us => fold_left str_max us u
  | [] => ""
  end.

(** The rows of one currency: a group of [groupby("Currency")]. *)
Definition group (ccy : string) (rows : list Row) : list Row :=
  filter (fun r => (Currency r =? ccy)%string) rows.

(** Line 207: per currency, the rows whose [Updated] is the largest of the
    group.  The order in which [groupby] hands the rows back differs
    between pandas versions; the rows are kept here in the order they
    came in, and what is stated about this function does not depend on
    the order. *)
Definition keep_latest (rows : list Row) : list Row :=
  filter (fun r =>
            (Updated r =? max_Updated (group (Currency r) rows))%string) rows.

(** The csv files, by what [pd.read_csv] reads from each path; [None] is a
    path that does not exist.  A file gives back the rows written to it. *)
Definition Files : Type := string -> option (list Row).

(** [rows.to_csv(path, index=False)] *)
Definition to_csv (path : string) (rows : list Row) (fs : Files) : Files :=
  fun p => if (p =? path)%string then Some rows else fs p.

Definition curves_csv : string := "N:/Offdata/RM/_Data/Curves/ois_fwd/curves.csv".

(** Line 199 *)
Definition dated_file (target_date : Py.datetime) : string :=
  "N:/Offdata/RM/_Data/Curves/ois_fwd/curves_" ++ strftime_date target_date
  ++ ".csv".

Definition debug (fmt : string) (a : list logarg) : LogRecord :=
  mk_LogRecord DEBUG fmt a.

Definition len {A : Type} (l : list A) : logarg := AInt (Z.of_nat (List.length l)).

(** Lines 201-208: the rows to write and the lines logged on the way. *)
Definition carry_over (result : list Row) (previous : option (list Row))
  : list Row * list LogRecord :=
  match previous with
  | Some previous_rates =>
      let joined := (result ++ previous_rates)%list in
      (keep_latest joined,
       [debug "Previous run found for today, loaded %s rows" [len previous_rates];
        debug "Joining with collected %s rows" [len result];
        debug "Concatenated frame has %s rows" [len joined];
        debug "Final data frame of %s rows" [len (keep_latest joined)]])
  | None => (result, [])
  end.

(** Lines 184-220, from the frames of the loop to the files written. *)
Definition finish (frames : list DataFrame) (target_date : Py.datetime)
  (fs : Files) : outcome (Files * list LogRecord) :=
  bind (concat frames) (fun result =>
  bind (prefer_strings result) (fun result =>
  let (result, lines) := carry_over result (fs (dated_file target_date)) in
  Return (to_csv (dated_file target_date) result (to_csv curves_csv result fs),
          (lines ++
           [debug "Writing to output csv..." [];
            debug "Writing dated copy of csv..." [];
            mk_LogRecord INFO "Finished" []])%list))).

End Output.

(** The fields of a timestamp down to the second, and the datetimes that
    [strftime] writes on four and two digits. *)
Definition to_the_second (t : Py.datetime) : list Z :=
  [Py.year t; Py.month t; Py.day t; Py.hour t; Py.minute t; Py.second t].

Definition calendar_day (t : Py.datetime) : list Z :=
  [Py.year t; Py.month t; Py.day t].

Definition four_digit_year (t : Py.datetime) : Prop :=
  1000 <= Py.year t <= 9999 /\ 1 <= Py.month t <= 12 /\ 1 <= Py.day t <= 31 /\
  0 <= Py.hour t <= 23 /\ 0 <= Py.minute t <= 59 /\ 0 <= Py.second t <= 59.

(** The rows of one group that carry its largest [Updated]. *)
Definition latest_of (g : list Output.Row) : list Output.Row :=
  filter (fun r => (Output.Updated r =? Output.max_Updated g)%string) g.

(** Comparison of two lists of numbers, first difference first. *)
Fixpoint lex_compare (a b : list Z) : comparison :=
  match a, b with
  | x :: a', y :: b' => match x ?= y with
                        | Eq => lex_compare a' b'
                        | c => c
                        end
  | [], [] => Eq
  | [], _ :: _ => Lt
  | _ :: _, [] => Gt
  end.

(** The columns of a frame that [fwd_curve] assembled. *)
Definition five_columns : list string :=
  ["Date"; "Currency"; "DateFwd"; "RateFwd"; "Updated"].

(** A frame as [fwd_curve] returns it and as the end of the script takes
    it: the empty frame, or a frame with the five columns and some row. *)
Definition shaped (f : DataFrame) : Prop :=
  f = pd_DataFrame \/ (columns f = five_columns /\ rows f <> []).

(** A currency the loop passes over: it has a row in the update times and
    is outside its window, or inside it with a price missing. *)
Definition passed_over (df : list Script.QuoteRow)
  (config_update_time : list Script.UpdateTime) (current_hour : Z)
  (ccy : string) : bool :=
  match Script.window_of config_update_time ccy with
  | u :: _ =>
      negb ((Script.FirstUpdate u <=? current_hour) &&
            (current_hour <? Script.LastUpdate u))
      || (0 <? Script.isnull_sum (Script.quotes_of df ccy))
  | [] => false
  end.

(** Rows for the concrete runs of the end of the script: a morning run
    that refreshed EUR and GBP, and a later run that refreshed EUR only. *)
Module Sample.

Definition morning : Py.datetime := Py.mk_datetime 2023 3 6 9 30 7 120.
Definition noon : Py.datetime := Py.mk_datetime 2023 3 6 12 0 41 0.
Definition noon_later : Py.datetime := Py.mk_datetime 2023 3 6 12 0 41 900.

Definition point (ccy : string) (d : Z) (rate : R) (stamp : Py.datetime)
  : ForwardPoint :=
  mk_ForwardPoint (Py.datetime_ymd 2023 3 6) ccy (Py.datetime_ymd 2023 3 d)
    rate stamp.

Definition frame (ccy : string) (rate : R) (stamp : Py.datetime) : DataFrame :=
  mk_DataFrame ["Date"; "Currency"; "DateFwd"; "RateFwd"; "Updated"]
    [point ccy 6 rate stamp; point ccy 7 rate stamp].

Definition previous_rates : list Output.Row :=
  map Output.to_text
    (rows (frame "EUR" 3.5%R morning) ++ rows (frame "GBP" 4.1%R morning)).

Definition result : list Output.Row :=
  map Output.to_text (rows (frame "EUR" 3.4%R noon)).

Definition result_later : list Output.Row :=
  map Output.to_text (rows (frame "EUR" 3.4%R noon_later)).

Definition no_files : Output.Files := fun _ => None.

(** The schedule of the EUR runs of [Demo]: every day from 2023-03-06 to
    2026-03-06. *)
Definition all_days : list ql.Date :=
  Eval cbv in Demo.days_from 1097 (ql.mk_Date 2023 3 6) (ql.mk_Date 2026 3 6).

End Sample.

(** ** The model on small inputs *)

Example int_of_text :
  map Py.int [Py.CStr " 12 "; Py.CStr "-2"; Py.CStr "+7"; Py.CStr "1_000";
              Py.CStr ""; Py.CStr "1__0"; Py.CStr "2.5"; Py.CInt (-2); Py.CNaN]
  = [Py.Return 12; Py.Return (-2); Py.Return 7; Py.Return 1000;
     Py.Raise Py.ValueError; Py.Raise Py.ValueError; Py.Raise Py.ValueError;
     Py.Return (-2); Py.Raise Py.ValueError].
Proof. reflexivity. Qed.

Example upper_of_text :
  map Py.upper ["d"; "Y"; "3m"; "x-Z"] = ["D"; "Y"; "3M"; "X-Z"].
Proof. reflexivity. Qed.

Example convention_table :
  map (fun c => option_map (fun v => (settlement_days v, calendar v, day_count v))
                  (currency_convention c))
      ["EUR"; "GBP"; "USD"; "JPY"; "AUD"; "CAD"; "CHF"; "eur"]
  = [Some (2, ql.TARGET, ql.Actual360);
     Some (0, ql.UnitedKingdom, ql.Actual365Fixed);
     Some (2, ql.UnitedStates, ql.Actual360);
     Some (2, ql.Japan, ql.Actual365Fixed);
     Some (1, ql.Australia, ql.Actual365Fixed);
     Some (1, ql.Canada, ql.Actual365Fixed);
     None; None].
Proof. reflexivity. Qed.

Example tenor_of_quote :
  fst (quote_tenor [Py.CInt 3; Py.CStr "10"; Py.CInt 5] ["M"; "Y"; "d"] 1
         Demo.world0) = Py.Return (ql.mk_Period 10 ql.Years) /\
  fst (quote_tenor [Py.CInt 3; Py.CStr "10"; Py.CInt 5] ["M"; "Y"; "d"] 2
         Demo.world0) = Py.Return (ql.mk_Period 5 ql.Days) /\
  fst (quote_tenor [Py.CInt 3] ["X"] 0 Demo.world0) = Py.Raise Py.SystemExit /\
  fst (quote_tenor [Py.CInt 3] ["M"; "Y"] 1 Demo.world0) = Py.Raise Py.IndexError.
Proof. repeat split. Qed.

Example demo_calendar :
  Demo.weekday (ql.mk_Date 2023 3 6) = 1 /\
  Demo.advance ql.TARGET (ql.mk_Date 2023 3 6) 3 ql.Years
    = ql.Ok (ql.mk_Date 2026 3 6) /\
  Demo.advance ql.TARGET (ql.mk_Date 2026 3 6) 1 ql.Days
    = ql.Ok (ql.mk_Date 2026 3 9) /\
  Demo.advance ql.TARGET (ql.mk_Date 2024 2 29) 1 ql.Years
    = ql.Ok (ql.mk_Date 2025 2 28) /\
  Demo.advance ql.TARGET (ql.mk_Date 2023 1 7) 0 ql.Days
    = ql.Ok (ql.mk_Date 2023 1 9) /\
  Demo.MakeSchedule (ql.mk_Date 2023 12 30) (ql.mk_Date 2024 1 2)
    (ql.mk_Period 1 ql.Days)
    = ql.Ok [ql.mk_Date 2023 12 30; ql.mk_Date 2023 12 31;
             ql.mk_Date 2024 1 1; ql.mk_Date 2024 1 2].
Proof. repeat split. Qed.

(** A one-year quote alone leaves the three-year extraction outside the
    curve: the library error comes back as the empty frame. *)
Example short_curve_is_empty :
  fst (fwd_curve Demo.lib [3.5%R] [Py.CInt 1] ["Y"] Demo.t0 "EUR" Demo.t1
         Demo.world0) = Py.Return pd_DataFrame.
Proof. reflexivity. Qed.

(** ** Reasoning about statements *)

Lemma mbind_Return {A B : Type} (c : M A) (k : A -> M B) w a w1 :
  c w = (Py.Return a, w1) -> mbind c k w = k a w1.
Proof. intros H. unfold mbind. rewrite H. reflexivity. Qed.

Lemma mbind_Raise {A B : Type} (c : M A) (k : A -> M B) w e w1 :
  c w = (Py.Raise e, w1) -> mbind c k w = (Py.Raise e, w1).
Proof. intros H. unfold mbind. rewrite H. reflexivity. Qed.

Lemma mbind_Return_inv {A B : Type} (c : M A) (k : A -> M B) w b w' :
  mbind c k w = (Py.Return b, w') ->
  exists a w1, c w = (Py.Return a, w1) /\ k a w1 = (Py.Return b, w').
Proof.
  unfold mbind. destruct (c w) as [[a | e] w1]; intros H.
  - exists a, w1. split; [reflexivity | exact H].
  - discriminate H.
Qed.

Lemma tame_ret {A : Type} (a : A) : tame (ret a).
Proof. intros w. split; [reflexivity | intros; reflexivity]. Qed.

Lemma tame_raise {A : Type} (e : Py.exn) : tame (@raise A e).
Proof. intros w. split; [reflexivity | intros; reflexivity]. Qed.

Lemma tame_lift {A : Type} (o : Py.outcome A) : tame (lift o).
Proof. intros w. split; [reflexivity | intros; reflexivity]. Qed.

Lemma tame_logging l fmt a : tame (logging l fmt a).
Proof. intros w. split; [reflexivity | intros; reflexivity]. Qed.

Lemma tame_getitem {A : Type} (xs : list A) i : tame (getitem xs i).
Proof.
  unfold getitem. destruct (nth_error xs i); [apply tame_ret | apply tame_raise].
Qed.

Lemma tame_ql_call {A : Type} (f : ql.Settings -> ql.result A) :
  tame (ql_call f).
Proof.
  intros w. unfold ql_call. split.
  - destruct (f (settings w)); reflexivity.
  - intros w2 E. rewrite E. destruct (f (settings w)); reflexivity.
Qed.

Lemma tame_mbind {A B : Type} (c : M A) (k : A -> M B) :
  tame c -> (forall a, tame (k a)) -> tame (mbind c k).
Proof.
  intros Hc Hk w. destruct (Hc w) as [Hs Hf]. split.
  - unfold mbind. destruct (c w) as [[a | e] w1]; simpl in *.
    + rewrite <- Hs. apply (Hk a w1).
    + exact Hs.
  - intros w2 E. specialize (Hf w2 E).
    destruct (Hc w2) as [Hs2 _]. unfold mbind.
    destruct (c w) as [[a | e] w1], (c w2) as [[a2 | e2] w3];
      simpl in *; try discriminate; try congruence.
    injection Hf as ->. apply (Hk a w1). congruence.
Qed.

Create HintDb tame.

#[local] Hint Resolve tame_ret tame_raise tame_lift tame_logging tame_getitem
  tame_ql_call : tame.

Ltac tame_steps :=
  repeat (first [ apply tame_mbind; [ | intros ? ] | solve [ auto with tame ] ]).

Lemma tame_exit {A : Type} : tame (@exit A).
Proof. apply tame_raise. Qed.

Lemma tame_quote_tenor terms units i : tame (quote_tenor terms units i).
Proof.
  unfold quote_tenor. tame_steps.
  destruct (time_unit_of _); tame_steps. apply tame_exit.
Qed.

Section PipelineFacts.

Variable lib : ql.Library.

Lemma tame_quote_helper conv rates terms units i :
  tame (quote_helper lib conv rates terms units i).
Proof.
  unfold quote_helper. apply tame_mbind; [apply tame_quote_tenor | intros p].
  tame_steps.
Qed.

Lemma tame_helpers_loop conv rates terms units range acc :
  tame (helpers_loop lib conv rates terms units range acc).
Proof.
  revert acc. induction range as [| i range IH]; intros acc; simpl.
  - apply tame_ret.
  - apply tame_mbind; [apply tame_quote_helper | intros h; apply IH].
Qed.

Lemma tame_try_except conv hs currency now :
  tame (try_except lib conv hs currency now).
Proof.
  intros w. unfold try_except. split.
  - destruct (try_body _ _ _ _ _ _); reflexivity.
  - intros w2 E. rewrite E. destruct (try_body _ _ _ _ _ _); reflexivity.
Qed.

End PipelineFacts.

(** ** What a run of [fwd_curve] goes through *)

Lemma getitem_Return {A : Type} (xs : list A) i w x w' :
  getitem xs i w = (Py.Return x, w') -> w' = w /\ nth_error xs i = Some x.
Proof.
  unfold getitem. destruct (nth_error xs i); cbv [ret raise]; intros H;
    inversion H; subst; auto.
Qed.

Lemma quote_tenor_Return terms units i w p w' :
  quote_tenor terms units i w = (Py.Return p, w') ->
  w' = w /\
  exists u tu c n,
    nth_error units i = Some u /\ time_unit_of (Py.upper u) = Some tu /\
    nth_error terms i = Some c /\ Py.int c = Py.Return n /\
    ql.Period_of n tu = Py.Return p.
Proof.
  unfold quote_tenor. intros H.
  apply mbind_Return_inv in H as (u & w1 & Hu & H).
  apply getitem_Return in Hu as [-> Hu].
  apply mbind_Return_inv in H as (tu & w2 & Htu & H).
  destruct (time_unit_of (Py.upper u)) as [tu' |] eqn:Eu.
  2:{ cbv [mbind logging exit raise] in Htu. discriminate Htu. }
  cbv [ret] in Htu. inversion Htu; subst tu' w2; clear Htu.
  apply mbind_Return_inv in H as (c & w3 & Hc & H).
  apply getitem_Return in Hc as [-> Hc].
  apply mbind_Return_inv in H as (n & w4 & Hn & H).
  cbv [lift] in Hn, H. inversion Hn; subst w4. inversion H; subst w'.
  split; [reflexivity |]. exists u, tu, c, n. auto.
Qed.

Section Runs.

Variable lib : ql.Library.

Lemma quote_helper_Return conv rates terms units i w h w' :
  quote_helper lib conv rates terms units i w = (Py.Return h, w') ->
  w' = w /\
  exists p r,
    quote_tenor terms units i w = (Py.Return p, w) /\
    nth_error rates i = Some r /\
    ql.OISRateHelper lib (settings w) (settlement_days conv) p (r / 100)%R
      (index conv) = ql.Ok h.
Proof.
  unfold quote_helper. intros H.
  apply mbind_Return_inv in H as (p & w1 & Hp & H).
  destruct (quote_tenor_Return _ _ _ _ _ _ Hp) as [-> _].
  apply mbind_Return_inv in H as (r & w2 & Hr & H).
  apply getitem_Return in Hr as [-> Hr].
  unfold ql_call in H.
  destruct (ql.OISRateHelper _ _ _ _ _ _) as [h' | what] eqn:E;
    inversion H; subst.
  split; [reflexivity |]. exists p, r. auto.
Qed.

Lemma helpers_loop_Return conv rates terms units range acc w hs w' :
  helpers_loop lib conv rates terms units range acc w = (Py.Return hs, w') ->
  w' = w.
Proof.
  revert acc w. induction range as [| i range IH]; intros acc w H; simpl in H.
  - cbv [ret] in H. inversion H. reflexivity.
  - apply mbind_Return_inv in H as (h & w1 & Hh & H).
    apply quote_helper_Return in Hh as [-> _]. eapply IH, H.
Qed.

(** The loop stops at the first quote whose helper cannot be built, with
    that quote's exception. *)
Lemma helpers_loop_first_failure conv rates terms units k :
  forall a n acc w e w',
    (k < n)%nat ->
    (forall j, (j < k)%nat -> exists h,
        fst (quote_helper lib conv rates terms units (a + j) w) = Py.Return h) ->
    quote_helper lib conv rates terms units (a + k) w = (Py.Raise e, w') ->
    helpers_loop lib conv rates terms units (seq a n) acc w = (Py.Raise e, w').
Proof.
  induction k as [| k IH]; intros a n acc w e w' Hk Hbefore Hfail.
  - destruct n as [| n]; [lia |]. simpl.
    rewrite Nat.add_0_r in Hfail. apply mbind_Raise. exact Hfail.
  - destruct n as [| n]; [lia |]. simpl.
    destruct (Hbefore 0%nat ltac:(lia)) as [h Hh].
    rewrite Nat.add_0_r in Hh.
    destruct (quote_helper lib conv rates terms units a w) as [o w1] eqn:E.
    simpl in Hh. subst o.
    destruct (quote_helper_Return _ _ _ _ _ _ _ _ E) as [-> _].
    rewrite (mbind_Return _ _ _ _ _ E).
    apply IH.
    + lia.
    + intros j Hj. destruct (Hbefore (S j) ltac:(lia)) as [h' Hh'].
      exists h'. rewrite <- Hh'. f_equal. f_equal. lia.
    + rewrite <- Hfail. f_equal. lia.
Qed.

Lemma fwd_curve_supported rates terms units eval_date currency now w conv :
  currency_convention currency = Some conv ->
  fwd_curve lib rates terms units eval_date currency now w =
  (ois_helpers <- helpers_loop lib conv rates terms units
                    (seq 0 (List.length rates)) [] ;;
   try_except lib conv ois_helpers currency now) (started eval_date currency w).
Proof.
  intros Hc. unfold fwd_curve. rewrite Hc. reflexivity.
Qed.

Lemma fwd_curve_unsupported rates terms units eval_date currency now w :
  currency_convention currency = None ->
  fwd_curve lib rates terms units eval_date currency now w =
  (Py.Raise Py.SystemExit,
   mk_World (ql.mk_Settings (ql.from_date eval_date))
     (log (started eval_date currency w) ++
      [mk_LogRecord CRITICAL "Unexpected OIS currency %s" [AStr currency]])).
Proof.
  intros Hc. unfold fwd_curve. rewrite Hc. reflexivity.
Qed.

Lemma map_result_Ok {A B : Type} (f : A -> ql.result B) l bs :
  ql.map_result f l = ql.Ok bs -> Forall2 (fun a b => f a = ql.Ok b) l bs.
Proof.
  revert bs. induction l as [| a l IH]; intros bs H; simpl in H.
  - inversion H. constructor.
  - destruct (f a) as [b | what] eqn:Ea; simpl in H; [| discriminate].
    destruct (ql.map_result f l) as [bs' | what] eqn:El; simpl in H;
      [| discriminate].
    inversion H; subst. constructor; auto.
Qed.

Lemma try_body_Ok s conv hs currency now df :
  try_body lib s conv hs currency now = ql.Ok df ->
  exists curve ref_date last_day all_days rates_fwd,
    ql.PiecewiseLogCubicDiscount lib s 0 (calendar conv) hs (day_count conv)
      = ql.Ok curve /\
    ql.referenceDate lib s curve = ql.Ok ref_date /\
    ql.advance lib (calendar conv) ref_date 3 ql.Years = ql.Ok last_day /\
    ql.MakeSchedule lib ref_date last_day (ql.mk_Period 1 ql.Days)
      = ql.Ok all_days /\
    Forall2 (fun d r => rate_fwd lib s conv curve d = ql.Ok r)
      all_days rates_fwd /\
    df = assemble ref_date currency now all_days rates_fwd.
Proof.
  unfold try_body. intros Et.
  destruct (ql.PiecewiseLogCubicDiscount _ _ _ _ _ _) as [curve | ?] eqn:E1;
    simpl in Et; [| discriminate].
  destruct (ql.referenceDate lib s curve) as [ref_date | ?] eqn:E2;
    simpl in Et; [| discriminate].
  destruct (ql.advance lib _ ref_date 3 ql.Years) as [last_day | ?] eqn:E3;
    simpl in Et; [| discriminate].
  destruct (ql.MakeSchedule lib ref_date last_day _) as [all_days | ?] eqn:E4;
    simpl in Et; [| discriminate].
  destruct (ql.map_result _ all_days) as [rates_fwd | ?] eqn:E5;
    simpl in Et; [| discriminate].
  inversion Et; subst df.
  exists curve, ref_date, last_day, all_days, rates_fwd.
  repeat split; auto. apply map_result_Ok, E5.
Qed.

(** A call that returns went through a supported currency and a completed
    helper loop, and then either through the whole [try] body or through
    the [except] branch. *)
Lemma fwd_curve_Return rates terms units eval_date currency now w df w' :
  fwd_curve lib rates terms units eval_date currency now w = (Py.Return df, w') ->
  let s := ql.mk_Settings (ql.from_date eval_date) in
  exists conv hs,
    currency_convention currency = Some conv /\
    helpers_loop lib conv rates terms units (seq 0 (List.length rates)) []
      (started eval_date currency w)
      = (Py.Return hs, started eval_date currency w) /\
    (try_body lib s conv hs currency now = ql.Ok df \/
     exists what, try_body lib s conv hs currency now = ql.Error what /\
                  df = pd_DataFrame).
Proof.
  intros H s.
  destruct (currency_convention currency) as [conv |] eqn:Hc.
  2:{ rewrite fwd_curve_unsupported in H by exact Hc. discriminate H. }
  rewrite (fwd_curve_supported _ _ _ _ _ _ _ _ Hc) in H.
  apply mbind_Return_inv in H as (hs & w1 & Hhs & H).
  pose proof (helpers_loop_Return _ _ _ _ _ _ _ _ _ Hhs) as ->.
  exists conv, hs. split; [reflexivity |]. split; [exact Hhs |].
  unfold try_except in H. simpl settings in H. fold s in H.
  destruct (try_body lib s conv hs currency now) as [df' | what] eqn:Et.
  - cbv [ret] in H. inversion H; subst. left. reflexivity.
  - cbv [mbind logging ret] in H. inversion H; subst. right.
    exists what. auto.
Qed.

(** What stands behind a frame that has rows. *)
Lemma fwd_curve_success rates terms units eval_date currency now w df w' :
  fwd_curve lib rates terms units eval_date currency now w = (Py.Return df, w') ->
  rows df <> [] ->
  let s := ql.mk_Settings (ql.from_date eval_date) in
  exists conv hs curve ref_date last_day all_days rates_fwd,
    currency_convention currency = Some conv /\
    ql.PiecewiseLogCubicDiscount lib s 0 (calendar conv) hs (day_count conv)
      = ql.Ok curve /\
    ql.referenceDate lib s curve = ql.Ok ref_date /\
    ql.advance lib (calendar conv) ref_date 3 ql.Years = ql.Ok last_day /\
    ql.MakeSchedule lib ref_date last_day (ql.mk_Period 1 ql.Days)
      = ql.Ok all_days /\
    Forall2 (fun d r => rate_fwd lib s conv curve d = ql.Ok r)
      all_days rates_fwd /\
    df = assemble ref_date currency now all_days rates_fwd.
Proof.
  intros H Hrows s.
  destruct (fwd_curve_Return _ _ _ _ _ _ _ _ _ H) as (conv & hs & Hc & _ & [Et | Et]).
  - apply try_body_Ok in Et
      as (curve & ref_date & last_day & all_days & rates_fwd & Et).
    exists conv, hs, curve, ref_date, last_day, all_days, rates_fwd.
    split; [exact Hc | exact Et].
  - destruct Et as (what & _ & ->). contradiction Hrows. reflexivity.
Qed.

End Runs.

(** ** The rows of one extraction *)


Lemma Forall2_rows {P : ql.Date -> R -> Prop} {Q : ql.Date -> ForwardPoint -> Prop}
  (f : ql.Date * R -> ForwardPoint) l rs :
  (forall d r, P d r -> Q d (f (d, r))) ->
  Forall2 P l rs -> Forall2 Q l (map f (combine l rs)).
Proof.
  intros HPQ H. induction H as [| d r l rs Hd _ IH]; simpl; constructor; auto.
Qed.

Lemma to_datetime_ltb a b :
  Py.datetime_ltb (to_datetime a) (to_datetime b) = ql.Date_ltb a b.
Proof.
  destruct a as [y1 m1 d1], b as [y2 m2 d2].
  cbv [Py.datetime_ltb ql.Date_ltb to_datetime Py.datetime_ymd Py.fields
       Py.lex_ltb Py.year Py.month Py.day Py.hour Py.minute Py.second
       Py.microsecond ql.year ql.month ql.dayOfMonth].
  rewrite Z.ltb_irrefl, Z.eqb_refl. simpl. reflexivity.
Qed.

Lemma ascending_to_datetime l :
  ascending Py.datetime_ltb (map to_datetime l) = ascending ql.Date_ltb l.
Proof.
  induction l as [| a [| b l] IH]; try reflexivity.
  change (Py.datetime_ltb (to_datetime a) (to_datetime b) &&
          ascending Py.datetime_ltb (map to_datetime (b :: l)) =
          ql.Date_ltb a b && ascending ql.Date_ltb (b :: l)).
  rewrite IH, to_datetime_ltb. reflexivity.
Qed.

Lemma DateFwd_assemble ref_date currency now all_days rates_fwd :
  List.length all_days = List.length rates_fwd ->
  map DateFwd (rows (assemble ref_date currency now all_days rates_fwd))
  = map to_datetime all_days.
Proof.
  intros Hlen. simpl. rewrite map_map. simpl.
  rewrite <- (map_map fst to_datetime). f_equal.
  revert rates_fwd Hlen.
  induction all_days as [| d l IH]; intros [| r rs] Hlen; simpl in *;
    try discriminate; try reflexivity.
  f_equal. apply IH. lia.
Qed.

Lemma restamp_assemble ref_date currency now now2 all_days rates_fwd :
  restamp now2 (assemble ref_date currency now all_days rates_fwd)
  = assemble ref_date currency now2 all_days rates_fwd.
Proof.
  unfold restamp, assemble. simpl. rewrite map_map. reflexivity.
Qed.

Section Rerun.

Variable lib : ql.Library.

Lemma try_body_restamp s conv hs currency now now2 :
  try_body lib s conv hs currency now2 =
  match try_body lib s conv hs currency now with
  | ql.Ok df => ql.Ok (restamp now2 df)
  | ql.Error what => ql.Error what
  end.
Proof.
  unfold try_body.
  destruct (ql.PiecewiseLogCubicDiscount _ _ _ _ _ _) as [curve | ?];
    simpl; [| reflexivity].
  destruct (ql.referenceDate lib s curve) as [ref_date | ?];
    simpl; [| reflexivity].
  destruct (ql.advance lib _ ref_date 3 ql.Years) as [last_day | ?];
    simpl; [| reflexivity].
  destruct (ql.MakeSchedule lib ref_date last_day _) as [all_days | ?];
    simpl; [| reflexivity].
  destruct (ql.map_result _ all_days) as [rates_fwd | ?];
    simpl; [| reflexivity].
  rewrite restamp_assemble. reflexivity.
Qed.

(** A second run that differs in the clock reading only. *)
Lemma fwd_curve_restamp rates terms units eval_date currency now now2 w :
  fwd_curve lib rates terms units eval_date currency now2 w =
  (match fst (fwd_curve lib rates terms units eval_date currency now w) with
   | Py.Return df => Py.Return (restamp now2 df)
   | Py.Raise e => Py.Raise e
   end,
   snd (fwd_curve lib rates terms units eval_date currency now w)).
Proof.
  destruct (currency_convention currency) as [conv |] eqn:Hc.
  2:{ rewrite !fwd_curve_unsupported by exact Hc. reflexivity. }
  rewrite !(fwd_curve_supported _ _ _ _ _ _ _ _ _ Hc).
  unfold mbind.
  destruct (helpers_loop _ _ _ _ _ _ _ _) as [[hs | e] w1]; [| reflexivity].
  unfold try_except. rewrite (try_body_restamp _ _ _ _ now now2).
  destruct (try_body lib (settings w1) conv hs currency now); reflexivity.
Qed.

End Rerun.

Lemma Demo_run :
  fwd_curve Demo.lib Demo.rates Demo.terms Demo.units Demo.t0 "EUR" Demo.t1
    Demo.world0 = (Py.Return Demo.frame, Demo.world1).
Proof. run_demo. Qed.

Lemma Demo_frame_rows : rows Demo.frame <> [].
Proof. discriminate. Qed.

Lemma Demo_continuous_forward : continuous_forward Demo.lib.
Proof.
  intros s c d1 d2 dc r H. simpl in *. unfold Demo.forwardRate in H.
  destruct (Demo.discount s c d1) as [df1 |]; simpl in H; [| discriminate].
  destruct (Demo.discount s c d2) as [df2 |]; simpl in H; [| discriminate].
  inversion H. exists df1, df2. auto.
Qed.

(** C3: for each date [d] of the extraction schedule, in schedule order,
    the row for [d] reports the continuously compounded forward rate
    between [d] and [d1 = calendar.advance(d, 1 day)] under the currency's
    day count, that is (ln(discount(d)) - ln(discount(d1))) /
    year_fraction(d, d1), times 100. *)
Theorem one_day_forward_formula lib rates terms units eval_date currency now w df w' :
  continuous_forward lib ->
  fwd_curve lib rates terms units eval_date currency now w = (Py.Return df, w') ->
  rows df <> [] ->
  let s := ql.mk_Settings (ql.from_date eval_date) in
  exists conv hs curve ref_date last_day all_days,
    currency_convention currency = Some conv /\
    ql.PiecewiseLogCubicDiscount lib s 0 (calendar conv) hs (day_count conv)
      = ql.Ok curve /\
    ql.referenceDate lib s curve = ql.Ok ref_date /\
    ql.advance lib (calendar conv) ref_date 3 ql.Years = ql.Ok last_day /\
    ql.MakeSchedule lib ref_date last_day (ql.mk_Period 1 ql.Days)
      = ql.Ok all_days /\
    Forall2
      (fun d row =>
         DateFwd row = to_datetime d /\
         exists d1 df0 df1,
           ql.advance lib (calendar conv) d 1 ql.Days = ql.Ok d1 /\
           ql.discount lib s curve d = ql.Ok df0 /\
           ql.discount lib s curve d1 = ql.Ok df1 /\
           RateFwd row =
             ((ln df0 - ln df1) / ql.yearFraction lib (day_count conv) d d1
              * 100)%R)
      all_days (rows df).
Proof.
  intros Hlib H Hrows s.
  destruct (fwd_curve_success _ _ _ _ _ _ _ _ _ _ H Hrows)
    as (conv & hs & curve & ref_date & last_day & all_days & rates_fwd &
        Hc & Hcurve & Href & Hlast & Hsched & Hrates & ->).
  exists conv, hs, curve, ref_date, last_day, all_days.
  repeat (split; [assumption |]).
  simpl rows. eapply Forall2_rows; [| exact Hrates].
  intros d r Hr. simpl. split; [reflexivity |].
  unfold rate_fwd in Hr.
  destruct (ql.advance lib (calendar conv) d 1 ql.Days) as [d1 |] eqn:Ed;
    simpl in Hr; [| discriminate].
  destruct (ql.forwardRate lib _ curve d d1 _ _) as [f |] eqn:Ef;
    simpl in Hr; [| discriminate].
  inversion Hr; subst r.
  destruct (Hlib _ _ _ _ _ _ Ef) as (df0 & df1 & H0 & H1 & ->).
  exists d1, df0, df1. auto.
Qed.

Lemma one_day_forward_formula_witness :
  continuous_forward Demo.lib /\
  fwd_curve Demo.lib Demo.rates Demo.terms Demo.units Demo.t0 "EUR" Demo.t1
    Demo.world0 = (Py.Return Demo.frame, Demo.world1) /\
  rows Demo.frame <> [] /\
  let s := ql.mk_Settings (ql.from_date Demo.t0) in
  exists conv hs curve ref_date last_day all_days,
    currency_convention "EUR" = Some conv /\
    ql.PiecewiseLogCubicDiscount Demo.lib s 0 (calendar conv) hs (day_count conv)
      = ql.Ok curve /\
    ql.referenceDate Demo.lib s curve = ql.Ok ref_date /\
    ql.advance Demo.lib (calendar conv) ref_date 3 ql.Years = ql.Ok last_day /\
    ql.MakeSchedule Demo.lib ref_date last_day (ql.mk_Period 1 ql.Days)
      = ql.Ok all_days /\
    Forall2
      (fun d row =>
         DateFwd row = to_datetime d /\
         exists d1 df0 df1,
           ql.advance Demo.lib (calendar conv) d 1 ql.Days = ql.Ok d1 /\
           ql.discount Demo.lib s curve d = ql.Ok df0 /\
           ql.discount Demo.lib s curve d1 = ql.Ok df1 /\
           RateFwd row =
             ((ln df0 - ln df1) /
              ql.yearFraction Demo.lib (day_count conv) d d1 * 100)%R)
      all_days (rows Demo.frame).
Proof.
  split; [exact Demo_continuous_forward |].
  split; [exact Demo_run |].
  split; [exact Demo_frame_rows |].
  exact (one_day_forward_formula Demo.lib Demo.rates Demo.terms Demo.units
           Demo.t0 "EUR" Demo.t1 Demo.world0 Demo.frame Demo.world1
           Demo_continuous_forward Demo_run Demo_frame_rows).
Defined.


(** C4, as the code has it: a successful call yields exactly one row per
    date of the schedule that runs from the curve's reference date to
    [calendar.advance(reference date, 3 years)] in one-day steps, in
    schedule order, so the frame has as many rows as the schedule has
    dates; the forward dates are strictly ascending when the schedule is;
    and a second run on the same inputs yields the same rows up to the
    timestamp. *)
Theorem one_row_per_schedule_date lib rates terms units eval_date currency now w df w' :
  fwd_curve lib rates terms units eval_date currency now w = (Py.Return df, w') ->
  rows df <> [] ->
  let s := ql.mk_Settings (ql.from_date eval_date) in
  exists conv hs curve ref_date last_day all_days,
    currency_convention currency = Some conv /\
    ql.PiecewiseLogCubicDiscount lib s 0 (calendar conv) hs (day_count conv)
      = ql.Ok curve /\
    ql.referenceDate lib s curve = ql.Ok ref_date /\
    ql.advance lib (calendar conv) ref_date 3 ql.Years = ql.Ok last_day /\
    ql.MakeSchedule lib ref_date last_day (ql.mk_Period 1 ql.Days)
      = ql.Ok all_days /\
    map DateFwd (rows df) = map to_datetime all_days /\
    List.length (rows df) = List.length all_days /\
    (ascending ql.Date_ltb all_days = true ->
     ascending Py.datetime_ltb (map DateFwd (rows df)) = true) /\
    forall now2, exists df2,
      fwd_curve lib rates terms units eval_date currency now2 w
        = (Py.Return df2, w') /\
      map unstamped (rows df2) = map unstamped (rows df) /\
      Forall (fun r => Updated r = now2) (rows df2).
Proof.
  intros H Hrows s.
  destruct (fwd_curve_success _ _ _ _ _ _ _ _ _ _ H Hrows)
    as (conv & hs & curve & ref_date & last_day & all_days & rates_fwd &
        Hc & Hcurve & Href & Hlast & Hsched & Hrates & Hdf).
  exists conv, hs, curve, ref_date, last_day, all_days.
  repeat (split; [assumption |]).
  assert (Hlen : List.length all_days = List.length rates_fwd)
    by (eapply Forall2_length; exact Hrates).
  assert (Hdates : map DateFwd (rows df) = map to_datetime all_days)
    by (subst df; apply DateFwd_assemble, Hlen).
  split; [exact Hdates |].
  split.
  { rewrite <- (length_map DateFwd), Hdates, length_map. reflexivity. }
  split.
  { intros Hasc. rewrite Hdates, ascending_to_datetime. exact Hasc. }
  intros now2. exists (restamp now2 df).
  rewrite (fwd_curve_restamp lib _ _ _ _ _ now now2), H. simpl.
  split; [reflexivity |]. split.
  - rewrite map_map. reflexivity.
  - apply Forall_forall. intros r Hr.
    apply in_map_iff in Hr as (r0 & <- & _). reflexivity.
Qed.

Lemma one_row_per_schedule_date_witness :
  fwd_curve Demo.lib Demo.rates Demo.terms Demo.units Demo.t0 "EUR" Demo.t1
    Demo.world0 = (Py.Return Demo.frame, Demo.world1) /\
  rows Demo.frame <> [] /\
  (let s := ql.mk_Settings (ql.from_date Demo.t0) in
  exists conv hs curve ref_date last_day all_days,
    currency_convention "EUR" = Some conv /\
    ql.PiecewiseLogCubicDiscount Demo.lib s 0 (calendar conv) hs (day_count conv)
      = ql.Ok curve /\
    ql.referenceDate Demo.lib s curve = ql.Ok ref_date /\
    ql.advance Demo.lib (calendar conv) ref_date 3 ql.Years = ql.Ok last_day /\
    ql.MakeSchedule Demo.lib ref_date last_day (ql.mk_Period 1 ql.Days)
      = ql.Ok all_days /\
    map DateFwd (rows Demo.frame) = map to_datetime all_days /\
    List.length (rows Demo.frame) = List.length all_days /\
    (ascending ql.Date_ltb all_days = true ->
     ascending Py.datetime_ltb (map DateFwd (rows Demo.frame)) = true) /\
    forall now2, exists df2,
      fwd_curve Demo.lib Demo.rates Demo.terms Demo.units Demo.t0 "EUR" now2
        Demo.world0 = (Py.Return df2, Demo.world1) /\
      map unstamped (rows df2) = map unstamped (rows Demo.frame) /\
      Forall (fun r => Updated r = now2) (rows df2)) /\
  ascending Py.datetime_ltb (map DateFwd (rows Demo.frame)) = true.
Proof.
  split; [exact Demo_run |].
  split; [exact Demo_frame_rows |].
  split; [| reflexivity].
  exact (one_row_per_schedule_date Demo.lib Demo.rates Demo.terms Demo.units
           Demo.t0 "EUR" Demo.t1 Demo.world0 Demo.frame Demo.world1
           Demo_run Demo_frame_rows).
Defined.

(** C4 as claimed fails: for the two EUR quotes run on Monday 2023-03-06
    the schedule ends on Friday 2026-03-06, 1096 days later, and the frame
    has 1097 rows, one for each day with both ends included; that is
    neither 365*3 nor 366*3. *)
Lemma schedule_length_counterexample :
  fwd_curve Demo.lib Demo.rates Demo.terms Demo.units Demo.t0 "EUR" Demo.t1
    Demo.world0 = (Py.Return Demo.frame, Demo.world1) /\
  option_map DateFwd (hd_error (rows Demo.frame))
    = Some (Py.datetime_ymd 2023 3 6) /\
  option_map DateFwd (hd_error (rev (rows Demo.frame)))
    = Some (Py.datetime_ymd 2026 3 6) /\
  Demo.serial (ql.mk_Date 2026 3 6) - Demo.serial (ql.mk_Date 2023 3 6) = 1096 /\
  List.length (rows Demo.frame) = 1097%nat /\
  ~ (List.length (rows Demo.frame) = (365 * 3)%nat \/
     List.length (rows Demo.frame) = (366 * 3)%nat).
Proof.
  split; [exact Demo_run |].
  assert (Hlen : List.length (rows Demo.frame) = 1097%nat)
    by (cbv -[exp ln IZR Rdiv Rminus Rmult Ropp Rplus Rinv]; reflexivity).
  split; [reflexivity |].
  split; [cbv -[exp ln IZR Rdiv Rminus Rmult Ropp Rplus Rinv]; reflexivity |].
  split; [reflexivity |].
  split; [exact Hlen |].
  rewrite Hlen. intros [H | H]; discriminate H.
Qed.

(** ** The empty quote set *)




(** ** Quotes that cannot be turned into a helper *)

Lemma getitem_Some {A : Type} (xs : list A) i x w :
  nth_error xs i = Some x -> getitem xs i w = (Py.Return x, w).
Proof. intros H. unfold getitem. rewrite H. reflexivity. Qed.

Lemma quote_tenor_bad_unit terms units i u w :
  nth_error units i = Some u ->
  time_unit_of (Py.upper u) = None ->
  quote_tenor terms units i w = (Py.Raise Py.SystemExit, unit_rejected u w).
Proof.
  intros Hu Hnone. unfold quote_tenor.
  rewrite (mbind_Return _ _ _ _ _ (getitem_Some _ _ _ w Hu)).
  rewrite Hnone. reflexivity.
Qed.

Lemma quote_tenor_int terms units i u tu c w :
  nth_error units i = Some u ->
  time_unit_of (Py.upper u) = Some tu ->
  nth_error terms i = Some c ->
  quote_tenor terms units i w =
  match Py.int c with
  | Py.Return n => (ql.Period_of n tu, w)
  | Py.Raise e => (Py.Raise e, w)
  end.
Proof.
  intros Hu Htu Hc. unfold quote_tenor.
  rewrite (mbind_Return _ _ _ _ _ (getitem_Some _ _ _ w Hu)).
  rewrite Htu. unfold mbind at 1. cbv [ret].
  rewrite (mbind_Return _ _ _ _ _ (getitem_Some _ _ _ w Hc)).
  unfold mbind, lift. destruct (Py.int c); reflexivity.
Qed.

Lemma time_unit_of_long a b s : time_unit_of (String a (String b s)) = None.
Proof.
  unfold time_unit_of. simpl.
  repeat match goal with
         | |- context [Ascii.eqb ?x ?y] => destruct (Ascii.eqb x y)
         end; reflexivity.
Qed.

Lemma time_unit_of_upper u tu :
  time_unit_of (Py.upper u) = Some tu <->
  In (u, tu) [("D", ql.Days); ("d", ql.Days); ("W", ql.Weeks); ("w", ql.Weeks);
              ("M", ql.Months); ("m", ql.Months); ("Y", ql.Years); ("y", ql.Years)].
Proof.
  split.
  - destruct u as [| a [| b s]].
    + discriminate.
    + destruct a as [[] [] [] [] [] [] [] []]; cbv; intros H;
        try discriminate H; inversion H; subst; tauto.
    + simpl. rewrite time_unit_of_long. discriminate.
  - simpl. intros H.
    repeat (destruct H as [H | H]; [inversion H; reflexivity |]).
    contradiction.
Qed.

Section Failures.

Variable lib : ql.Library.

Lemma quote_helper_Raise conv rates terms units i w e w' :
  quote_tenor terms units i w = (Py.Raise e, w') ->
  quote_helper lib conv rates terms units i w = (Py.Raise e, w').
Proof. intros H. unfold quote_helper. apply mbind_Raise, H. Qed.

(** The first quote whose helper cannot be built decides the call. *)
Lemma fwd_curve_first_failure rates terms units eval_date currency now w conv k e w' :
  currency_convention currency = Some conv ->
  (k < List.length rates)%nat ->
  (forall j, (j < k)%nat -> exists h,
      fst (quote_helper lib conv rates terms units j
             (started eval_date currency w)) = Py.Return h) ->
  quote_helper lib conv rates terms units k (started eval_date currency w)
    = (Py.Raise e, w') ->
  fwd_curve lib rates terms units eval_date currency now w = (Py.Raise e, w').
Proof.
  intros Hc Hk Hbefore Hfail.
  rewrite (fwd_curve_supported _ _ _ _ _ _ _ _ _ Hc).
  apply mbind_Raise.
  apply (helpers_loop_first_failure lib conv rates terms units k 0); auto.
Qed.

(** A library error inside the [try] comes back as the empty frame. *)
Lemma fwd_curve_library_error rates terms units eval_date currency now w conv hs what :
  currency_convention currency = Some conv ->
  helpers_loop lib conv rates terms units (seq 0 (List.length rates)) []
    (started eval_date currency w)
    = (Py.Return hs, started eval_date currency w) ->
  try_body lib (ql.mk_Settings (ql.from_date eval_date)) conv hs currency now
    = ql.Error what ->
  fst (fwd_curve lib rates terms units eval_date currency now w)
    = Py.Return pd_DataFrame.
Proof.
  intros Hc Hhs Herr.
  rewrite (fwd_curve_supported _ _ _ _ _ _ _ _ _ Hc).
  rewrite (mbind_Return _ _ _ _ _ Hhs).
  unfold try_except. simpl settings. rewrite Herr. reflexivity.
Qed.

End Failures.

(** ** The currency loop *)

Section LoopFacts.

Variable lib : ql.Library.
Variable df : list Script.QuoteRow.
Variable config_update_time : list Script.UpdateTime.
Variable current_hour : Z.
Variable target_date : Py.datetime.
Variable clock : string -> Py.datetime.

Let turn := Script.turn lib df config_update_time current_hour target_date clock.
Let currency_loop :=
  Script.currency_loop lib df config_update_time current_hour target_date clock.

Lemma isnull_sum_nonempty c_df :
  0 < Script.isnull_sum c_df -> c_df <> [].
Proof. intros H ->. cbv in H. discriminate H. Qed.

(** A currency with a missing price is skipped: its turn adds no frame
    and does not reach [fwd_curve], so the settings stay as they were. *)
Lemma turn_null_quote ccy frames w :
  in_window config_update_time current_hour ccy = true ->
  0 < Script.isnull_sum (Script.quotes_of df ccy) ->
  exists w', turn ccy frames w = (Py.Return frames, w') /\
             settings w' = settings w.
Proof.
  unfold in_window. intros Hwin Hna. unfold turn, Script.turn.
  destruct (Script.window_of config_update_time ccy) as [| u us] eqn:Ew;
    [discriminate |].
  cbn [map Script.first getitem nth_error]. cbv [mbind ret logging].
  rewrite Hwin.
  pose proof (isnull_sum_nonempty _ Hna) as Hne.
  destruct (Script.quotes_of df ccy) as [| q qs] eqn:Eq; [contradiction |].
  cbv [Script.first getitem nth_error ret].
  apply Z.ltb_lt in Hna. rewrite Hna.
  eexists. split; reflexivity.
Qed.

(** A currency inside its window with a full quote set goes to
    [fwd_curve]. *)
Lemma turn_refresh ccy frames w :
  in_window config_update_time current_hour ccy = true ->
  Script.quotes_of df ccy <> [] ->
  Script.isnull_sum (Script.quotes_of df ccy) = 0 ->
  turn ccy frames w =
  (fwds <- fwd_curve lib (Script.values (Script.quotes_of df ccy))
             (map Script.Term (Script.quotes_of df ccy))
             (map Script.Unit (Script.quotes_of df ccy))
             target_date ccy (clock ccy) ;;
   ret (frames ++ [fwds])%list)
    (checked config_update_time current_hour ccy w).
Proof.
  unfold in_window, checked. intros Hwin Hne Hna. unfold turn, Script.turn.
  destruct (Script.window_of config_update_time ccy) as [| u us] eqn:Ew;
    [discriminate |].
  cbn [map Script.first getitem nth_error]. cbv [mbind ret logging].
  rewrite Hwin.
  destruct (Script.quotes_of df ccy) as [| q qs] eqn:Eq; [contradiction |].
  cbv [Script.first getitem nth_error ret].
  rewrite Hna. reflexivity.
Qed.

(** An exception that leaves [fwd_curve] leaves the loop: the currencies
    after it are not visited and no list of frames is produced. *)
Lemma currency_loop_Raise ccy rest frames w e :
  in_window config_update_time current_hour ccy = true ->
  Script.quotes_of df ccy <> [] ->
  Script.isnull_sum (Script.quotes_of df ccy) = 0 ->
  fst (fwd_curve lib (Script.values (Script.quotes_of df ccy))
         (map Script.Term (Script.quotes_of df ccy))
         (map Script.Unit (Script.quotes_of df ccy))
         target_date ccy (clock ccy)
         (checked config_update_time current_hour ccy w)) = Py.Raise e ->
  fst (currency_loop (ccy :: rest) frames w) = Py.Raise e.
Proof.
  intros Hwin Hne Hna Hfwd. unfold currency_loop. simpl.
  unfold mbind at 1. fold turn. rewrite (turn_refresh _ _ _ Hwin Hne Hna).
  unfold mbind at 1.
  destruct (fwd_curve _ _ _ _ _ _ _ _) as [o w1]. simpl in Hfwd. subst o.
  reflexivity.
Qed.

End LoopFacts.

(** ** Failures at the boundary of a run *)


Lemma Demo_loop_EUR : fst (Demo.currency_loop ["EUR"]) = Py.Return [Demo.frame].
Proof. run_demo. Qed.



(** ** Tenor units and magnitudes *)

(** C7, as the code has it: a unit that reads D, W, M or Y in either case
    is mapped to days, weeks, months or years, and the tenor of the quote
    carries that unit; any other unit string is logged as fatal and ends
    the call with [SystemExit], which ends the whole currency loop and
    not only the turn of that currency. *)
Theorem unit_dispatch lib :
  (forall u tu,
      time_unit_of (Py.upper u) = Some tu <->
      In (u, tu)
        [("D", ql.Days); ("d", ql.Days); ("W", ql.Weeks); ("w", ql.Weeks);
         ("M", ql.Months); ("m", ql.Months); ("Y", ql.Years); ("y", ql.Years)]) /\
  (forall terms units i w p w',
      quote_tenor terms units i w = (Py.Return p, w') ->
      exists u, nth_error units i = Some u /\
                time_unit_of (Py.upper u) = Some (ql.units p)) /\
  (forall terms units i u w,
      nth_error units i = Some u ->
      time_unit_of (Py.upper u) = None ->
      quote_tenor terms units i w = (Py.Raise Py.SystemExit, unit_rejected u w)) /\
  (forall df config_update_time current_hour target_date clock ccy rest frames
          w conv k u,
      in_window config_update_time current_hour ccy = true ->
      Script.quotes_of df ccy <> [] ->
      Script.isnull_sum (Script.quotes_of df ccy) = 0 ->
      currency_convention ccy = Some conv ->
      (k < List.length (Script.values (Script.quotes_of df ccy)))%nat ->
      (forall j, (j < k)%nat -> exists h,
          fst (quote_helper lib conv (Script.values (Script.quotes_of df ccy))
                 (map Script.Term (Script.quotes_of df ccy))
                 (map Script.Unit (Script.quotes_of df ccy)) j
                 (started target_date ccy
                    (checked config_update_time current_hour ccy w)))
          = Py.Return h) ->
      nth_error (map Script.Unit (Script.quotes_of df ccy)) k = Some u ->
      time_unit_of (Py.upper u) = None ->
      fst (Script.currency_loop lib df config_update_time current_hour
             target_date clock (ccy :: rest) frames w)
        = Py.Raise Py.SystemExit).
Proof.
  split; [exact time_unit_of_upper |].
  split; [| split].
  - intros * H.
    destruct (quote_tenor_Return _ _ _ _ _ _ H)
      as (_ & u & tu & c & n & Hu & Htu & _ & _ & Hp).
    exists u. split; [exact Hu |].
    unfold ql.Period_of in Hp.
    destruct ((-2147483648 <=? n) && (n <=? 2147483647)); inversion Hp.
    exact Htu.
  - intros. apply quote_tenor_bad_unit; assumption.
  - intros * Hwin Hne Hna Hc Hk Hbefore Hu Hnone.
    apply currency_loop_Raise; try assumption.
    rewrite (fwd_curve_first_failure lib _ _ _ target_date ccy (clock ccy) _
               conv k _ _ Hc Hk Hbefore
               (quote_helper_Raise lib conv _ _ _ _ _ _ _
                  (quote_tenor_bad_unit _ _ k u _ Hu Hnone))).
    reflexivity.
Qed.

Lemma unit_dispatch_witness :
  time_unit_of (Py.upper "m") = Some ql.Months /\
  (exists u, nth_error ["W"; "y"] 1 = Some u /\
             time_unit_of (Py.upper u) = Some ql.Years) /\
  quote_tenor [Py.CInt 3] ["X"] 0 Demo.world0
    = (Py.Raise Py.SystemExit, unit_rejected "X" Demo.world0) /\
  fst (Script.currency_loop Demo.lib Demo.df Demo.config_update_time
         Demo.current_hour Demo.t0 Demo.clock ("GBP" :: ["EUR"]) []
         Demo.world0) = Py.Raise Py.SystemExit.
Proof.
  destruct (unit_dispatch Demo.lib) as (Hmap & Hunit & Hbad & Hloop).
  split.
  { apply Hmap. simpl. tauto. }
  split.
  { apply (Hunit [Py.CInt 2; Py.CInt 10] ["W"; "y"] 1%nat Demo.world0
             (ql.mk_Period 10 ql.Years) Demo.world0). reflexivity. }
  split.
  { apply Hbad; reflexivity. }
  apply (Hloop Demo.df Demo.config_update_time Demo.current_hour Demo.t0
           Demo.clock "GBP" ["EUR"] [] Demo.world0
           (convention_of "GBP" 0 ql.GBPCurrency ql.UnitedKingdom
              ql.Actual365Fixed) 0%nat "X").
  - reflexivity.
  - discriminate.
  - reflexivity.
  - reflexivity.
  - simpl. lia.
  - intros j Hj. lia.
  - reflexivity.
  - reflexivity.
Defined.

(** C7 as claimed fails: the GBP quote with unit X does not stay a
    failure of the GBP turn; the loop over GBP and EUR ends with
    [SystemExit], although EUR alone yields its frame. *)
Lemma unknown_unit_counterexample :
  fst (fwd_curve Demo.lib [4.1%R] [Py.CInt 1] ["X"] Demo.t0 "GBP" Demo.t1
         Demo.world0) = Py.Raise Py.SystemExit /\
  fst (Demo.currency_loop ["EUR"]) = Py.Return [Demo.frame] /\
  fst (Demo.currency_loop ["GBP"; "EUR"]) = Py.Raise Py.SystemExit.
Proof.
  split; [reflexivity |].
  split; [exact Demo_loop_EUR | reflexivity].
Qed.

(** C6, as the code has it: the term goes through [int] and nothing
    checks its sign, so an integer term, positive or not, gives the period
    of that length, and the helper requested from the library is the one
    for that period; a term that [int] rejects raises [ValueError] before
    any helper is requested for the quote, and the exception leaves
    [fwd_curve]. *)
Theorem term_magnitude_unchecked lib :
  (forall conv rates terms units i u tu n r w,
      nth_error units i = Some u ->
      time_unit_of (Py.upper u) = Some tu ->
      nth_error terms i = Some (Py.CInt n) ->
      -2147483648 <= n <= 2147483647 ->
      nth_error rates i = Some r ->
      quote_tenor terms units i w = (Py.Return (ql.mk_Period n tu), w) /\
      quote_helper lib conv rates terms units i w =
      ql_call (fun s => ql.OISRateHelper lib s (settlement_days conv)
                          (ql.mk_Period n tu) (r / 100)%R (index conv)) w) /\
  (forall rates terms units eval_date currency now w conv k u tu c,
      currency_convention currency = Some conv ->
      (k < List.length rates)%nat ->
      (forall j, (j < k)%nat -> exists h,
          fst (quote_helper lib conv rates terms units j
                 (started eval_date currency w)) = Py.Return h) ->
      nth_error units k = Some u ->
      time_unit_of (Py.upper u) = Some tu ->
      nth_error terms k = Some c ->
      Py.int c = Py.Raise Py.ValueError ->
      quote_helper lib conv rates terms units k (started eval_date currency w)
        = (Py.Raise Py.ValueError, started eval_date currency w) /\
      fwd_curve lib rates terms units eval_date currency now w
        = (Py.Raise Py.ValueError, started eval_date currency w)).
Proof.
  split.
  - intros * Hu Htu Hc Hn Hr.
    assert (Ht : quote_tenor terms units i w = (Py.Return (ql.mk_Period n tu), w)).
    { rewrite (quote_tenor_int _ _ _ _ _ _ w Hu Htu Hc). simpl.
      unfold ql.Period_of.
      replace ((-2147483648 <=? n) && (n <=? 2147483647)) with true;
        [reflexivity |].
      symmetry. apply andb_true_iff. split; apply Z.leb_le; lia. }
    split; [exact Ht |].
    unfold quote_helper. rewrite (mbind_Return _ _ _ _ _ Ht).
    rewrite (mbind_Return _ _ _ _ _ (getitem_Some _ _ _ w Hr)). reflexivity.
  - intros * Hc Hk Hbefore Hu Htu Hterm Hint.
    assert (Hq : quote_helper lib conv rates terms units k
                   (started eval_date currency w)
                 = (Py.Raise Py.ValueError, started eval_date currency w)).
    { apply quote_helper_Raise.
      rewrite (quote_tenor_int _ _ _ _ _ _ _ Hu Htu Hterm), Hint. reflexivity. }
    split; [exact Hq |].
    exact (fwd_curve_first_failure lib rates terms units eval_date currency
             now w conv k _ _ Hc Hk Hbefore Hq).
Qed.

Lemma term_magnitude_unchecked_witness :
  (quote_tenor [Py.CInt (-2)] ["Y"] 0 Demo.world0
     = (Py.Return (ql.mk_Period (-2) ql.Years), Demo.world0) /\
   quote_helper Demo.lib
     (convention_of "EUR" 2 ql.EURCurrency ql.TARGET ql.Actual360)
     [3.5%R] [Py.CInt (-2)] ["Y"] 0 Demo.world0 =
   ql_call (fun s => ql.OISRateHelper Demo.lib s 2
                       (ql.mk_Period (-2) ql.Years) (3.5 / 100)%R
                       (ql.mk_OvernightIndex "EUR" 2 ql.EURCurrency ql.TARGET
                          ql.Actual360)) Demo.world0) /\
  (quote_helper Demo.lib
     (convention_of "USD" 2 ql.USDCurrency ql.UnitedStates ql.Actual360)
     [4.9%R] [Py.CStr ""] ["Y"] 0 (started Demo.t0 "USD" Demo.world0)
     = (Py.Raise Py.ValueError, started Demo.t0 "USD" Demo.world0) /\
   fwd_curve Demo.lib [4.9%R] [Py.CStr ""] ["Y"] Demo.t0 "USD" Demo.t1
     Demo.world0
     = (Py.Raise Py.ValueError, started Demo.t0 "USD" Demo.world0)).
Proof.
  destruct (term_magnitude_unchecked Demo.lib) as (Hint & Hfail).
  split.
  - apply (Hint (convention_of "EUR" 2 ql.EURCurrency ql.TARGET ql.Actual360)
             [3.5%R] [Py.CInt (-2)] ["Y"] 0%nat "Y" ql.Years (-2) 3.5%R
             Demo.world0); try reflexivity. lia.
  - apply (Hfail [4.9%R] [Py.CStr ""] ["Y"] Demo.t0 "USD" Demo.t1 Demo.world0
             (convention_of "USD" 2 ql.USDCurrency ql.UnitedStates ql.Actual360)
             0%nat "Y" ql.Years (Py.CStr "")); try reflexivity.
    + simpl. lia.
    + intros j Hj. lia.
Defined.

(** C6 as claimed fails: the magnitude -2 of "-2Y" is accepted, as a
    number or as text, and gives the period of -2 years. *)
Lemma negative_magnitude_counterexample :
  quote_tenor [Py.CInt (-2)] ["Y"] 0 Demo.world0
    = (Py.Return (ql.mk_Period (-2) ql.Years), Demo.world0) /\
  quote_tenor [Py.CStr "-2"] ["Y"] 0 Demo.world0
    = (Py.Return (ql.mk_Period (-2) ql.Years), Demo.world0) /\
  quote_tenor [Py.CInt 0] ["Y"] 0 Demo.world0
    = (Py.Return (ql.mk_Period 0 ql.Years), Demo.world0).
Proof. repeat split. Qed.

(** ** The state runs share *)

Section Shared.

Variable lib : ql.Library.

Lemma tame_after_line_24 rates terms units eval_date currency now :
  tame (after_line_24 lib rates terms units eval_date currency now).
Proof.
  unfold after_line_24.
  apply tame_mbind; [apply tame_logging | intros _].
  apply tame_mbind.
  - destruct (currency_convention currency); [apply tame_ret |].
    apply tame_mbind; [apply tame_logging | intros _; apply tame_exit].
  - intros conv. apply tame_mbind; [apply tame_helpers_loop | intros hs].
    apply tame_try_except.
Qed.

Lemma fwd_curve_after_line_24 rates terms units eval_date currency now w :
  fwd_curve lib rates terms units eval_date currency now w =
  after_line_24 lib rates terms units eval_date currency now
    (mk_World (ql.mk_Settings (ql.from_date eval_date)) (log w)).
Proof. reflexivity. Qed.

Lemma fwd_curve_settings rates terms units eval_date currency now w :
  settings (snd (fwd_curve lib rates terms units eval_date currency now w))
  = ql.mk_Settings (ql.from_date eval_date).
Proof.
  rewrite fwd_curve_after_line_24.
  apply (tame_after_line_24 rates terms units eval_date currency now).
Qed.

Lemma fwd_curve_any_world rates terms units eval_date currency now w1 w2 :
  fst (fwd_curve lib rates terms units eval_date currency now w1)
  = fst (fwd_curve lib rates terms units eval_date currency now w2).
Proof.
  rewrite !fwd_curve_after_line_24.
  apply (tame_after_line_24 rates terms units eval_date currency now).
  reflexivity.
Qed.

End Shared.

(** C8, as the code has it: runs do share state.  Every call of
    [fwd_curve] overwrites the process-wide evaluation date with its own
    [eval_date], whatever else happens in the call, and its library calls
    read the settings object.  Because the write comes first, the outcome
    of a call does not depend on the world it starts from, so two calls
    made one after the other give the same per-currency outcomes in
    either order. *)
Theorem evaluation_date_shared lib :
  (forall rates terms units eval_date currency now w,
      settings (snd (fwd_curve lib rates terms units eval_date currency now w))
      = ql.mk_Settings (ql.from_date eval_date)) /\
  (forall rates terms units eval_date currency now w1 w2,
      fst (fwd_curve lib rates terms units eval_date currency now w1)
      = fst (fwd_curve lib rates terms units eval_date currency now w2)) /\
  (forall ratesA termsA unitsA dateA ccyA nowA ratesB termsB unitsB dateB ccyB nowB w,
      let runA := fwd_curve lib ratesA termsA unitsA dateA ccyA nowA in
      let runB := fwd_curve lib ratesB termsB unitsB dateB ccyB nowB in
      fst (runA (snd (runB w))) = fst (runA w) /\
      fst (runB (snd (runA w))) = fst (runB w)).
Proof.
  split; [| split].
  - intros. apply fwd_curve_settings.
  - intros. apply fwd_curve_any_world.
  - intros. split; apply fwd_curve_any_world.
Qed.

(** C8 as claimed fails: a GBP run on 2023-03-06 replaces the evaluation
    date that the world held before, 2023-01-02, the date every later
    library call is given. *)
Lemma shared_evaluation_date_counterexample :
  ql.evaluationDate (settings Demo.world0) = ql.mk_Date 2023 1 2 /\
  ql.evaluationDate
    (settings (snd (fwd_curve Demo.lib [4.1%R] [Py.CInt 5] ["Y"] Demo.t0 "GBP"
                      Demo.t1 Demo.world0)))
  = ql.mk_Date 2023 3 6 /\
  settings (snd (fwd_curve Demo.lib [4.1%R] [Py.CInt 5] ["Y"] Demo.t0 "GBP"
                   Demo.t1 Demo.world0))
  <> settings Demo.world0.
Proof.
  pose proof (fwd_curve_settings Demo.lib [4.1%R] [Py.CInt 5] ["Y"] Demo.t0
                "GBP" Demo.t1 Demo.world0) as H.
  split; [reflexivity |].
  split; [rewrite H; reflexivity |].
  rewrite H. discriminate.
Qed.

(** ** Timestamps as text *)

Lemma lex_step (a b B : Z) (k : comparison) :
  0 < B ->
  match a / B ?= b / B with
  | Eq => match a mod B ?= b mod B with
          | Eq => k
          | c => c
          end
  | c => c
  end
  = match a ?= b with
    | Eq => k
    | c => c
    end.
Proof.
  intros HB.
  pose proof (Z.div_mod a B ltac:(lia)) as Ha.
  pose proof (Z.div_mod b B ltac:(lia)) as Hb.
  pose proof (Z.mod_pos_bound a B HB) as Ra.
  pose proof (Z.mod_pos_bound b B HB) as Rb.
  destruct (Z.compare_spec (a / B) (b / B)) as [Eq1 | Lt1 | Gt1].
  - destruct (Z.compare_spec (a mod B) (b mod B)) as [Eq2 | Lt2 | Gt2].
    + assert (a = b) as -> by congruence. rewrite Z.compare_refl. reflexivity.
    + assert (a < b) as H by (rewrite Ha, Hb, Eq1; lia).
      apply Z.compare_lt_iff in H. rewrite H. reflexivity.
    + assert (b < a) as H by (rewrite Ha, Hb, Eq1; lia).
      apply Z.compare_gt_iff in H. rewrite H. reflexivity.
  - assert (a < b) as H by nia.
    apply Z.compare_lt_iff in H. rewrite H. reflexivity.
  - assert (b < a) as H by nia.
    apply Z.compare_gt_iff in H. rewrite H. reflexivity.
Qed.

Lemma compare_digit_nat i j :
  (i < 10)%nat -> (j < 10)%nat ->
  Ascii.compare (Output.digit (Z.of_nat i)) (Output.digit (Z.of_nat j))
  = (Z.of_nat i ?= Z.of_nat j).
Proof.
  intros Hi Hj.
  do 10 (destruct i as [| i];
         [do 10 (destruct j as [| j]; [reflexivity |]); lia |]).
  lia.
Qed.

Lemma compare_digit a b :
  0 <= a < 10 -> 0 <= b < 10 ->
  Ascii.compare (Output.digit a) (Output.digit b) = (a ?= b).
Proof.
  intros Ha Hb.
  rewrite <- (Z2Nat.id a), <- (Z2Nat.id b) by lia.
  apply compare_digit_nat; lia.
Qed.

Lemma digit_mod n : Output.digit n = Output.digit (n mod 10).
Proof. unfold Output.digit. rewrite Z.mod_mod by lia. reflexivity. Qed.

Lemma compare_pad2 a b s t :
  0 <= a < 100 -> 0 <= b < 100 ->
  String.compare (Output.pad2 a s) (Output.pad2 b t)
  = match a ?= b with
    | Eq => String.compare s t
    | c => c
    end.
Proof.
  intros Ha Hb. unfold Output.pad2. cbn [String.compare].
  rewrite (digit_mod a), (digit_mod b).
  rewrite !compare_digit
    by first [ apply Z.mod_pos_bound; lia
             | split; [apply Z.div_pos; lia | apply Z.div_lt_upper_bound; lia] ].
  rewrite <- (lex_step a b 10 (String.compare s t)) by lia.
  reflexivity.
Qed.

Lemma compare_sep c s t :
  String.compare (String c s) (String c t) = String.compare s t.
Proof.
  cbn [String.compare]. unfold Ascii.compare. rewrite N.compare_refl.
  reflexivity.
Qed.

Lemma compare_strftime_Ymd a b s t :
  four_digit_year a -> four_digit_year b ->
  String.compare (Output.strftime_Ymd a s) (Output.strftime_Ymd b t)
  = match lex_compare (calendar_day a) (calendar_day b) with
    | Eq => String.compare s t
    | c => c
    end.
Proof.
  intros (Hy & Hm & Hd & _) (Hy' & Hm' & Hd' & _).
  unfold Output.strftime_Ymd, calendar_day. cbn [lex_compare].
  rewrite compare_pad2
    by (split; [apply Z.div_pos; lia | apply Z.div_lt_upper_bound; lia]).
  rewrite <- (lex_step (Py.year a) (Py.year b) 100) by lia.
  destruct (Py.year a / 100 ?= Py.year b / 100); try reflexivity.
  rewrite compare_pad2 by (apply Z.mod_pos_bound; lia).
  destruct (Py.year a mod 100 ?= Py.year b mod 100); try reflexivity.
  rewrite compare_sep, compare_pad2 by lia.
  destruct (Py.month a ?= Py.month b); try reflexivity.
  rewrite compare_sep, compare_pad2 by lia.
  destruct (Py.day a ?= Py.day b); reflexivity.
Qed.

Lemma compare_strftime_seconds a b :
  four_digit_year a -> four_digit_year b ->
  String.compare (Output.strftime_seconds a) (Output.strftime_seconds b)
  = lex_compare (to_the_second a) (to_the_second b).
Proof.
  intros Ha Hb. unfold Output.strftime_seconds.
  rewrite (compare_strftime_Ymd a b _ _ Ha Hb).
  destruct Ha as (_ & _ & _ & HH & HM & HS).
  destruct Hb as (_ & _ & _ & HH' & HM' & HS').
  unfold calendar_day, to_the_second. cbn [lex_compare].
  destruct (Py.year a ?= Py.year b); try reflexivity.
  destruct (Py.month a ?= Py.month b); try reflexivity.
  destruct (Py.day a ?= Py.day b); try reflexivity.
  rewrite compare_sep, compare_pad2 by lia.
  destruct (Py.hour a ?= Py.hour b); try reflexivity.
  rewrite compare_sep, compare_pad2 by lia.
  destruct (Py.minute a ?= Py.minute b); try reflexivity.
  rewrite compare_sep, compare_pad2 by lia.
  destruct (Py.second a ?= Py.second b); reflexivity.
Qed.

Lemma lex_compare_Lt a b :
  List.length a = List.length b ->
  (lex_compare a b = Lt <-> Py.lex_ltb a b = true).
Proof.
  revert b. induction a as [| x a IH]; intros [| y b] Hlen;
    try discriminate Hlen; simpl.
  - split; discriminate.
  - injection Hlen as Hlen. specialize (IH b Hlen).
    destruct (Z.compare_spec x y) as [-> | Hlt | Hgt].
    + rewrite Z.ltb_irrefl, Z.eqb_refl. simpl. exact IH.
    + apply Z.ltb_lt in Hlt. rewrite Hlt. simpl. tauto.
    + assert ((x <? y) = false) as -> by (apply Z.ltb_ge; lia).
      assert ((x =? y) = false) as -> by (apply Z.eqb_neq; lia).
      simpl. split; discriminate.
Qed.

Lemma lex_compare_Eq a b : lex_compare a b = Eq <-> a = b.
Proof.
  revert b. induction a as [| x a IH]; intros [| y b]; simpl;
    try (split; [discriminate | discriminate]); try tauto.
  destruct (Z.compare_spec x y) as [-> | Hlt | Hgt].
  - rewrite IH. split; [intros -> | intros H; injection H]; auto.
  - split; [discriminate | intros H; injection H; lia].
  - split; [discriminate | intros H; injection H; lia].
Qed.

(** ** The order of strings *)

Lemma string_compare_refl s : String.compare s s = Eq.
Proof.
  induction s as [| c s IH]; simpl; [reflexivity |].
  unfold Ascii.compare. rewrite N.compare_refl. exact IH.
Qed.

Lemma string_compare_Lt_trans a b c :
  String.compare a b = Lt -> String.compare b c = Lt -> String.compare a c = Lt.
Proof.
  revert b c. induction a as [| x a IH]; intros [| y b] [| z c]; simpl;
    intros H1 H2; try discriminate; try reflexivity.
  unfold Ascii.compare in *.
  destruct (N.compare_spec (N_of_ascii x) (N_of_ascii y)) as [Exy | Lxy | Gxy];
    try discriminate;
  destruct (N.compare_spec (N_of_ascii y) (N_of_ascii z)) as [Eyz | Lyz | Gyz];
    try discriminate.
  - rewrite Exy, Eyz, N.compare_refl. eapply IH; eassumption.
  - rewrite Exy. apply N.compare_lt_iff in Lyz. rewrite Lyz. reflexivity.
  - rewrite <- Eyz. apply N.compare_lt_iff in Lxy. rewrite Lxy. reflexivity.
  - assert (N_of_ascii x < N_of_ascii z)%N as H by (eapply N.lt_trans; eassumption).
    apply N.compare_lt_iff in H. rewrite H. reflexivity.
Qed.

Lemma string_leb_refl s : String.leb s s = true.
Proof. unfold String.leb. rewrite string_compare_refl. reflexivity. Qed.

Lemma string_leb_trans a b c :
  String.leb a b = true -> String.leb b c = true -> String.leb a c = true.
Proof.
  unfold String.leb. intros Hab Hbc.
  destruct (String.compare a b) eqn:Eab; try discriminate;
  destruct (String.compare b c) eqn:Ebc; try discriminate.
  - apply String.compare_eq_iff in Eab, Ebc. subst.
    rewrite string_compare_refl. reflexivity.
  - apply String.compare_eq_iff in Eab. subst. rewrite Ebc. reflexivity.
  - apply String.compare_eq_iff in Ebc. subst. rewrite Eab. reflexivity.
  - rewrite (string_compare_Lt_trans _ _ _ Eab Ebc). reflexivity.
Qed.

Lemma string_ltb_leb a b : String.ltb a b = true -> String.leb a b = true.
Proof.
  unfold String.ltb, String.leb. destruct (String.compare a b); auto.
Qed.

Lemma string_ltb_false_leb a b : String.ltb a b = false -> String.leb b a = true.
Proof.
  unfold String.ltb, String.leb. rewrite (String.compare_antisym b a).
  destruct (String.compare a b); simpl; intros H; try discriminate H;
    reflexivity.
Qed.

Lemma string_ltb_not_leb a b : String.ltb a b = true -> String.leb b a = false.
Proof.
  unfold String.ltb, String.leb. rewrite (String.compare_antisym b a).
  destruct (String.compare a b); simpl; intros H; try discriminate H;
    reflexivity.
Qed.

Lemma str_max_cases a b :
  (Output.str_max a b = a \/ Output.str_max a b = b) /\
  String.leb a (Output.str_max a b) = true /\
  String.leb b (Output.str_max a b) = true.
Proof.
  unfold Output.str_max. destruct (String.ltb a b) eqn:E.
  - split; [right; reflexivity |].
    split; [apply string_ltb_leb, E | apply string_leb_refl].
  - split; [left; reflexivity |].
    split; [apply string_leb_refl | apply string_ltb_false_leb, E].
Qed.

Lemma fold_str_max us : forall u,
  (fold_left Output.str_max us u = u \/ In (fold_left Output.str_max us u) us) /\
  String.leb u (fold_left Output.str_max us u) = true /\
  forall v, In v us -> String.leb v (fold_left Output.str_max us u) = true.
Proof.
  induction us as [| x us IH]; intros u; simpl.
  - split; [left; reflexivity |].
    split; [apply string_leb_refl | intros v []].
  - destruct (IH (Output.str_max u x)) as (Hin & Hle & Hall).
    destruct (str_max_cases u x) as (Hc & Hu & Hx).
    split; [| split].
    + destruct Hin as [E | Hin]; [| right; right; exact Hin].
      rewrite E. destruct Hc as [-> | ->]; [left | right; left]; reflexivity.
    + eapply string_leb_trans; eassumption.
    + intros v [<- | Hv]; [| apply Hall, Hv].
      eapply string_leb_trans; eassumption.
Qed.

(** The largest [Updated] of a group is the [Updated] of one of its rows
    and no row of the group has a larger one. *)
Lemma max_Updated_spec x :
  x <> [] ->
  In (Output.max_Updated x) (map Output.Updated x) /\
  forall r, In r x ->
    String.leb (Output.Updated r) (Output.max_Updated x) = true.
Proof.
  intros Hx. unfold Output.max_Updated.
  destruct x as [| r0 x]; [contradiction |]. simpl map. cbv iota.
  destruct (fold_str_max (map Output.Updated x) (Output.Updated r0))
    as (Hin & Hle & Hall).
  split.
  - destruct Hin as [-> | Hin]; [left; reflexivity | right; exact Hin].
  - intros r [<- | Hr]; [exact Hle |].
    apply Hall, in_map, Hr.
Qed.

Lemma max_Updated_unique x u :
  In u (map Output.Updated x) ->
  (forall r, In r x -> String.leb (Output.Updated r) u = true) ->
  Output.max_Updated x = u.
Proof.
  intros Hin Hall.
  assert (Hx : x <> []) by (intros ->; contradiction).
  destruct (max_Updated_spec x Hx) as (Hmax & Hle).
  apply in_map_iff in Hin as (r & <- & Hr).
  apply in_map_iff in Hmax as (r' & E & Hr').
  apply String.leb_antisym.
  - rewrite <- E. apply Hall, Hr'.
  - apply Hle, Hr.
Qed.

Lemma in_group c rows r :
  In r (Output.group c rows) <-> In r rows /\ Output.Currency r = c.
Proof.
  unfold Output.group. rewrite filter_In, String.eqb_eq. tauto.
Qed.

Lemma group_group c rows :
  Output.group c (Output.group c rows) = Output.group c rows.
Proof.
  unfold Output.group. induction rows as [| r rows IH]; simpl; [reflexivity |].
  destruct (Output.Currency r =? c)%string eqn:E; simpl; rewrite ?E, IH;
    reflexivity.
Qed.

(** ** Keeping the latest rows of each currency *)

Lemma filter_all {A : Type} (f : A -> bool) l :
  (forall x, In x l -> f x = true) -> filter f l = l.
Proof.
  induction l as [| a l IH]; intros H; simpl; [reflexivity |].
  rewrite (H a (or_introl eq_refl)), IH; [reflexivity |].
  intros x Hx. apply H. right. exact Hx.
Qed.

Lemma filter_none {A : Type} (f : A -> bool) l :
  (forall x, In x l -> f x = false) -> filter f l = [].
Proof.
  induction l as [| a l IH]; intros H; simpl; [reflexivity |].
  rewrite (H a (or_introl eq_refl)). apply IH.
  intros x Hx. apply H. right. exact Hx.
Qed.

Lemma latest_of_In g r :
  In r (latest_of g) <->
  In r g /\ forall r', In r' g ->
              String.leb (Output.Updated r') (Output.Updated r) = true.
Proof.
  unfold latest_of. rewrite filter_In, String.eqb_eq. split.
  - intros (Hr & E). split; [exact Hr |].
    assert (Hg : g <> []) by (intros ->; contradiction).
    intros r' Hr'. rewrite E. apply (max_Updated_spec g Hg), Hr'.
  - intros (Hr & Hall). split; [exact Hr |].
    symmetry. apply max_Updated_unique; [apply in_map, Hr | exact Hall].
Qed.

Lemma latest_of_nonempty g : g <> [] -> latest_of g <> [].
Proof.
  intros Hg.
  destruct (max_Updated_spec g Hg) as (Hmax & Hle).
  apply in_map_iff in Hmax as (r & E & Hr).
  assert (In r (latest_of g)) as H.
  { apply latest_of_In. split; [exact Hr |].
    intros r' Hr'. rewrite E. apply Hle, Hr'. }
  intros E0. rewrite E0 in H. contradiction.
Qed.

Lemma group_filter_latest c rows l :
  Output.group c
    (filter (fun r => (Output.Updated r
                       =? Output.max_Updated (Output.group (Output.Currency r) rows))%string) l)
  = filter (fun r => (Output.Updated r
                      =? Output.max_Updated (Output.group c rows))%string)
      (Output.group c l).
Proof.
  induction l as [| r l IH]; [reflexivity |].
  cbn [filter Output.group].
  destruct (Output.Currency r =? c)%string eqn:Ec.
  - pose proof Ec as Ec'. apply String.eqb_eq in Ec'.
    cbn [filter]. rewrite Ec'.
    destruct (Output.Updated r =? Output.max_Updated (Output.group c rows))%string.
    + cbn [filter Output.group]. rewrite Ec. f_equal. exact IH.
    + exact IH.
  - destruct (Output.Updated r =? _)%string.
    + cbn [filter Output.group]. rewrite Ec. exact IH.
    + exact IH.
Qed.

(** [keep_latest] works group by group. *)
Lemma group_keep_latest c rows :
  Output.group c (Output.keep_latest rows) = latest_of (Output.group c rows).
Proof. apply group_filter_latest. Qed.

Lemma keep_latest_In rows r :
  In r (Output.keep_latest rows) <->
  In r rows /\
  forall r', In r' rows -> Output.Currency r' = Output.Currency r ->
    String.leb (Output.Updated r') (Output.Updated r) = true.
Proof.
  split.
  - intros H.
    assert (In r (Output.group (Output.Currency r) (Output.keep_latest rows))) as Hg.
    { apply in_group. split; [exact H | reflexivity]. }
    rewrite group_keep_latest in Hg. apply latest_of_In in Hg as (Hr & Hall).
    apply in_group in Hr as (Hr & _). split; [exact Hr |].
    intros r' Hr' Ec. apply Hall, in_group. auto.
  - intros (Hr & Hall).
    assert (In r (Output.group (Output.Currency r) (Output.keep_latest rows))) as Hg.
    { rewrite group_keep_latest. apply latest_of_In. split.
      - apply in_group. auto.
      - intros r' Hr'. apply in_group in Hr' as (Hr' & Ec). auto. }
    apply in_group in Hg as (Hg & _). exact Hg.
Qed.

Lemma latest_of_same g u :
  g <> [] ->
  (forall r, In r g -> Output.Updated r = u) ->
  latest_of g = g.
Proof.
  intros Hg Hall. unfold latest_of. apply filter_all. intros r Hr.
  apply String.eqb_eq. symmetry. apply max_Updated_unique.
  - apply in_map, Hr.
  - intros r' Hr'. rewrite (Hall r Hr), (Hall r' Hr'). apply string_leb_refl.
Qed.

Lemma latest_of_Updated g r :
  In r (latest_of g) -> Output.Updated r = Output.max_Updated g.
Proof.
  unfold latest_of. rewrite filter_In, String.eqb_eq. tauto.
Qed.

Lemma latest_of_idempotent g : latest_of (latest_of g) = latest_of g.
Proof.
  destruct g as [| r0 g'] eqn:E; [reflexivity |]. rewrite <- E.
  assert (Hg : g <> []) by (rewrite E; discriminate).
  apply (latest_of_same _ (Output.max_Updated g)).
  - apply latest_of_nonempty, Hg.
  - intros r. apply latest_of_Updated.
Qed.

Lemma filter_Permutation {A : Type} (f : A -> bool) l l' :
  Permutation l l' -> Permutation (filter f l) (filter f l').
Proof.
  induction 1 as [| x l l' _ IH | x y l | l l' l'' _ IH1 _ IH2]; simpl.
  - constructor.
  - destruct (f x); [constructor |]; exact IH.
  - destruct (f x), (f y); try reflexivity. constructor.
  - eapply Permutation_trans; eassumption.
Qed.

Lemma max_Updated_Permutation g g' :
  Permutation g g' -> Output.max_Updated g = Output.max_Updated g'.
Proof.
  intros HP. destruct g as [| r0 g0] eqn:E.
  - apply Permutation_nil in HP. subst g'. reflexivity.
  - rewrite <- E in *.
    assert (Hg : g <> []) by (rewrite E; discriminate).
    destruct (max_Updated_spec g Hg) as (Hmax & Hle).
    symmetry. apply max_Updated_unique.
    + apply in_map_iff in Hmax as (r & Er & Hr).
      apply in_map_iff. exists r. split; [exact Er |].
      eapply Permutation_in; eassumption.
    + intros r Hr. apply Hle. eapply Permutation_in; [| exact Hr].
      apply Permutation_sym, HP.
Qed.

Lemma latest_of_Permutation g g' :
  Permutation g g' -> Permutation (latest_of g) (latest_of g').
Proof.
  intros HP. unfold latest_of.
  rewrite (max_Updated_Permutation g g' HP).
  apply filter_Permutation, HP.
Qed.

Lemma latest_of_app_new gn gp u :
  gn <> [] ->
  (forall r, In r gn -> Output.Updated r = u) ->
  (forall r, In r gp -> String.ltb (Output.Updated r) u = true) ->
  latest_of (gn ++ gp) = gn.
Proof.
  intros Hn Hnew Hold.
  assert (Hmax : Output.max_Updated (gn ++ gp) = u).
  { apply max_Updated_unique.
    - destruct gn as [| r gn']; [contradiction |].
      apply in_map_iff. exists r. split.
      + apply Hnew. left. reflexivity.
      + left. reflexivity.
    - intros r Hr. apply in_app_or in Hr as [Hr | Hr].
      + rewrite (Hnew r Hr). apply string_leb_refl.
      + apply string_ltb_leb, Hold, Hr. }
  unfold latest_of. rewrite Hmax, filter_app.
  rewrite (filter_all _ gn), (filter_none _ gp), app_nil_r; [reflexivity | |].
  - intros r Hr. apply String.eqb_neq. intros E.
    pose proof (Hold r Hr) as H. rewrite E in H.
    unfold String.ltb in H. rewrite string_compare_refl in H. discriminate H.
  - intros r Hr. apply String.eqb_eq, Hnew, Hr.
Qed.

Lemma latest_of_app_tie gn gp u :
  gn <> [] ->
  (forall r, In r gn -> Output.Updated r = u) ->
  (forall r, In r gp -> Output.Updated r = u) ->
  latest_of (gn ++ gp) = (gn ++ gp)%list.
Proof.
  intros Hn Hnew Hold. apply (latest_of_same _ u).
  - destruct gn; [contradiction | discriminate].
  - intros r Hr. apply in_app_or in Hr as [Hr | Hr]; auto.
Qed.

Lemma group_app c a b :
  Output.group c (a ++ b) = (Output.group c a ++ Output.group c b)%list.
Proof. apply filter_app. Qed.

Lemma keep_latest_idempotent rows :
  Output.keep_latest (Output.keep_latest rows) = Output.keep_latest rows.
Proof.
  unfold Output.keep_latest at 1. apply filter_all. intros r Hr.
  apply String.eqb_eq. rewrite group_keep_latest.
  assert (In r (latest_of (Output.group (Output.Currency r) rows))) as Hg.
  { rewrite <- group_keep_latest. apply in_group. auto. }
  symmetry. apply max_Updated_unique.
  - apply in_map, Hg.
  - intros r' Hr'. rewrite (latest_of_Updated _ _ Hg), (latest_of_Updated _ _ Hr').
    apply string_leb_refl.
Qed.

Lemma strftime_date_compare a b :
  four_digit_year a -> four_digit_year b ->
  String.compare (Output.strftime_date a) (Output.strftime_date b)
  = lex_compare (calendar_day a) (calendar_day b).
Proof.
  intros Ha Hb. unfold Output.strftime_date.
  rewrite (compare_strftime_Ymd a b "" "" Ha Hb).
  destruct (lex_compare _ _); reflexivity.
Qed.

Lemma append_inv_head p s t : (p ++ s = p ++ t)%string -> s = t.
Proof.
  induction p as [| c p IH]; simpl; intros H; [exact H |].
  injection H as H. apply IH, H.
Qed.

Lemma append_inv_tail s t z :
  String.length s = String.length t -> (s ++ z = t ++ z)%string -> s = t.
Proof.
  revert t. induction s as [| c s IH]; intros [| d t] Hlen H; simpl in *;
    try discriminate Hlen; [reflexivity |].
  injection Hlen as Hlen. injection H as -> H. f_equal. apply IH; assumption.
Qed.

Lemma strftime_date_length t : String.length (Output.strftime_date t) = 10%nat.
Proof. reflexivity. Qed.

Ltac in_rows H :=
  cbv -[exp ln IZR Rdiv Rminus Rmult Ropp Rplus Rinv] in H;
  repeat (destruct H as [<- | H]); [.. | contradiction].

Ltac valid_datetime := unfold four_digit_year; simpl; lia.

(** X1: for timestamps with four-digit years, the text written by
    [strftime("%Y-%m-%d %H:%M:%S")] orders as the timestamps do down to
    the second, and two texts are equal exactly when the timestamps agree
    down to the second. *)
Theorem timestamp_text_order a b :
  four_digit_year a -> four_digit_year b ->
  String.ltb (Output.strftime_seconds a) (Output.strftime_seconds b)
    = Py.lex_ltb (to_the_second a) (to_the_second b) /\
  (Output.strftime_seconds a = Output.strftime_seconds b <->
   to_the_second a = to_the_second b).
Proof.
  intros Ha Hb. pose proof (compare_strftime_seconds a b Ha Hb) as Hc.
  split.
  - unfold String.ltb. rewrite Hc.
    destruct (lex_compare (to_the_second a) (to_the_second b)) eqn:E;
      symmetry.
    + apply not_true_is_false. intros H.
      apply (lex_compare_Lt (to_the_second a) (to_the_second b) eq_refl) in H.
      congruence.
    + apply (lex_compare_Lt (to_the_second a) (to_the_second b) eq_refl), E.
    + apply not_true_is_false. intros H.
      apply (lex_compare_Lt (to_the_second a) (to_the_second b) eq_refl) in H. congruence.
  - rewrite <- lex_compare_Eq, <- Hc. split.
    + intros ->. apply string_compare_refl.
    + apply String.compare_eq_iff.
Qed.

Lemma timestamp_text_order_witness :
  four_digit_year Sample.morning /\ four_digit_year Sample.noon /\
  String.ltb (Output.strftime_seconds Sample.morning)
    (Output.strftime_seconds Sample.noon)
    = Py.lex_ltb (to_the_second Sample.morning) (to_the_second Sample.noon) /\
  (Output.strftime_seconds Sample.morning = Output.strftime_seconds Sample.noon <->
   to_the_second Sample.morning = to_the_second Sample.noon).
Proof.
  split; [valid_datetime |]. split; [valid_datetime |].
  apply (timestamp_text_order Sample.morning Sample.noon); valid_datetime.
Defined.

(** X2: the dated file of two runs is the same file exactly when the runs
    fall on the same calendar day, and it is never the file [curves.csv]. *)
Theorem dated_file_by_day a b :
  four_digit_year a -> four_digit_year b ->
  (Output.dated_file a = Output.dated_file b <-> calendar_day a = calendar_day b) /\
  Output.dated_file a <> Output.curves_csv.
Proof.
  intros Ha Hb. split.
  - rewrite <- lex_compare_Eq, <- (strftime_date_compare a b Ha Hb).
    unfold Output.dated_file. split.
    + intros H. apply append_inv_head in H.
      apply append_inv_tail in H; [| rewrite !strftime_date_length; reflexivity].
      rewrite H. apply string_compare_refl.
    + intros H. apply String.compare_eq_iff in H. rewrite H. reflexivity.
  - unfold Output.dated_file, Output.curves_csv. simpl. intros H.
    discriminate H.
Qed.

Lemma dated_file_by_day_witness :
  four_digit_year Sample.morning /\ four_digit_year Sample.noon /\
  (Output.dated_file Sample.morning = Output.dated_file Sample.noon <->
   calendar_day Sample.morning = calendar_day Sample.noon) /\
  Output.dated_file Sample.morning <> Output.curves_csv.
Proof.
  split; [valid_datetime |]. split; [valid_datetime |].
  apply (dated_file_by_day Sample.morning Sample.noon); valid_datetime.
Defined.

(** X3: a row is kept by the merge of line 207 exactly when it is a row
    of the input and no row of the same currency has a larger [Updated]. *)
Theorem latest_rows_kept rows r :
  In r (Output.keep_latest rows) <->
  In r rows /\
  forall r', In r' rows -> Output.Currency r' = Output.Currency r ->
    String.leb (Output.Updated r') (Output.Updated r) = true.
Proof. apply keep_latest_In. Qed.

Lemma latest_rows_kept_witness :
  In (Output.to_text (Sample.point "GBP" 7 4.1%R Sample.morning))
    (Output.keep_latest (Sample.result ++ Sample.previous_rates)) /\
  ~ In (Output.to_text (Sample.point "EUR" 7 3.5%R Sample.morning))
      (Output.keep_latest (Sample.result ++ Sample.previous_rates)).
Proof.
  split.
  - apply (latest_rows_kept (Sample.result ++ Sample.previous_rates)). split.
    + cbv -[exp ln IZR Rdiv Rminus Rmult Ropp Rplus Rinv]. tauto.
    + intros r' Hr' Hc. in_rows Hr'; try discriminate Hc; reflexivity.
  - intros H.
    apply (latest_rows_kept (Sample.result ++ Sample.previous_rates)) in H
      as (_ & Hall).
    specialize (Hall (Output.to_text (Sample.point "EUR" 6 3.4%R Sample.noon))).
    assert (String.leb "2023-03-06 12:00:41" "2023-03-06 09:30:07" = true) as Habs.
    { apply Hall; [| reflexivity].
      cbv -[exp ln IZR Rdiv Rminus Rmult Ropp Rplus Rinv]. tauto. }
    discriminate Habs.
Defined.

(** X4: the merge loses no currency and invents none: a currency has a
    row after the merge exactly when it had one before. *)
Theorem currencies_preserved rows c :
  (exists r, In r (Output.keep_latest rows) /\ Output.Currency r = c) <->
  (exists r, In r rows /\ Output.Currency r = c).
Proof.
  split.
  - intros (r & Hr & Ec). exists r. split; [| exact Ec].
    apply keep_latest_In in Hr. tauto.
  - intros (r & Hr & Ec).
    assert (Hg : Output.group c rows <> []).
    { intros E. assert (In r (Output.group c rows)) as H by (apply in_group; auto).
      rewrite E in H. contradiction. }
    pose proof (latest_of_nonempty _ Hg) as Hl.
    rewrite <- group_keep_latest in Hl.
    destruct (Output.group c (Output.keep_latest rows)) as [| r' l] eqn:E;
      [contradiction |].
    assert (In r' (Output.group c (Output.keep_latest rows))) as H
      by (rewrite E; left; reflexivity).
    apply in_group in H. exists r'. exact H.
Qed.

(** X5: merging what a merge has produced changes nothing: the same rows
    come out. *)
Theorem keep_latest_twice rows :
  Permutation (Output.keep_latest (Output.keep_latest rows))
    (Output.keep_latest rows).
Proof. rewrite keep_latest_idempotent. apply Permutation_refl. Qed.

(** X6: which rows the merge keeps does not depend on the order of the
    rows it is given. *)
Theorem keep_latest_order_free rows rows' :
  Permutation rows rows' ->
  Permutation (Output.keep_latest rows) (Output.keep_latest rows').
Proof.
  intros HP. unfold Output.keep_latest.
  rewrite (filter_ext_in _
    (fun r => (Output.Updated r
               =? Output.max_Updated (Output.group (Output.Currency r) rows'))%string)).
  - apply filter_Permutation, HP.
  - intros r _. f_equal. apply max_Updated_Permutation.
    apply filter_Permutation, HP.
Qed.

Lemma keep_latest_order_free_witness :
  Permutation (Sample.result ++ Sample.previous_rates)
    (Sample.previous_rates ++ Sample.result) /\
  Permutation (Output.keep_latest (Sample.result ++ Sample.previous_rates))
    (Output.keep_latest (Sample.previous_rates ++ Sample.result)).
Proof.
  split; [apply Permutation_app_comm |].
  apply (keep_latest_order_free (Sample.result ++ Sample.previous_rates)
           (Sample.previous_rates ++ Sample.result)).
  apply Permutation_app_comm.
Defined.

Lemma earlier_text t now :
  four_digit_year t -> four_digit_year now ->
  Py.lex_ltb (to_the_second t) (to_the_second now) = true ->
  String.ltb (Output.strftime_seconds t) (Output.strftime_seconds now) = true.
Proof.
  intros Ht Hnow H.
  unfold String.ltb. rewrite (compare_strftime_seconds t now Ht Hnow).
  apply (lex_compare_Lt (to_the_second t) (to_the_second now) eq_refl) in H.
  rewrite H. reflexivity.
Qed.

Lemma same_second_text t now :
  four_digit_year t -> four_digit_year now ->
  to_the_second t = to_the_second now ->
  Output.strftime_seconds t = Output.strftime_seconds now.
Proof.
  intros Ht Hnow H. apply String.compare_eq_iff.
  rewrite (compare_strftime_seconds t now Ht Hnow). apply lex_compare_Eq, H.
Qed.

(** X7: when a dated file exists and this run refreshed a currency at a
    time later, to the second, than every row the file holds for it, the
    rows written for that currency are the new ones and none of the old. *)
Theorem refreshed_currency_replaced result previous_rates c now :
  four_digit_year now ->
  Output.group c result <> [] ->
  (forall r, In r (Output.group c result) ->
     Output.Updated r = Output.strftime_seconds now) ->
  (forall r, In r (Output.group c previous_rates) ->
     exists t, four_digit_year t /\
               Output.Updated r = Output.strftime_seconds t /\
               Py.lex_ltb (to_the_second t) (to_the_second now) = true) ->
  Permutation
    (Output.group c (fst (Output.carry_over result (Some previous_rates))))
    (Output.group c result).
Proof.
  intros Hnow Hne Hnew Hold. simpl.
  rewrite group_keep_latest, group_app.
  rewrite (latest_of_app_new _ _ (Output.strftime_seconds now) Hne Hnew).
  - apply Permutation_refl.
  - intros r Hr. destruct (Hold r Hr) as (t & Ht & -> & Hlt).
    apply earlier_text; assumption.
Qed.

Lemma refreshed_currency_replaced_witness :
  four_digit_year Sample.noon /\
  Output.group "EUR" Sample.result <> [] /\
  Permutation
    (Output.group "EUR"
       (fst (Output.carry_over Sample.result (Some Sample.previous_rates))))
    (Output.group "EUR" Sample.result).
Proof.
  split; [valid_datetime |]. split; [discriminate |].
  apply (refreshed_currency_replaced Sample.result Sample.previous_rates "EUR"
           Sample.noon).
  - valid_datetime.
  - discriminate.
  - intros r Hr. in_rows Hr; reflexivity.
  - intros r Hr. exists Sample.morning.
    split; [valid_datetime |]. split; [in_rows Hr; reflexivity | reflexivity].
Defined.

(** X8: when the rows the dated file holds for a currency carry the same
    second as the rows of this run, both the old and the new rows are
    written: the timestamp text has no fraction of a second to tell them
    apart. *)
Theorem same_second_rows_both_kept result previous_rates c now :
  four_digit_year now ->
  Output.group c result <> [] ->
  (forall r, In r (Output.group c result) ->
     Output.Updated r = Output.strftime_seconds now) ->
  (forall r, In r (Output.group c previous_rates) ->
     exists t, four_digit_year t /\
               Output.Updated r = Output.strftime_seconds t /\
               to_the_second t = to_the_second now) ->
  Permutation
    (Output.group c (fst (Output.carry_over result (Some previous_rates))))
    (Output.group c result ++ Output.group c previous_rates).
Proof.
  intros Hnow Hne Hnew Hold. simpl.
  rewrite group_keep_latest, group_app.
  rewrite (latest_of_app_tie _ _ (Output.strftime_seconds now) Hne Hnew).
  - apply Permutation_refl.
  - intros r Hr. destruct (Hold r Hr) as (t & Ht & -> & Heq).
    apply same_second_text; assumption.
Qed.

Lemma same_second_rows_both_kept_witness :
  four_digit_year Sample.noon_later /\
  Sample.noon <> Sample.noon_later /\
  Output.group "EUR" Sample.result_later <> [] /\
  Permutation
    (Output.group "EUR"
       (fst (Output.carry_over Sample.result_later (Some Sample.result))))
    (Output.group "EUR" Sample.result_later ++ Output.group "EUR" Sample.result).
Proof.
  split; [valid_datetime |]. split; [discriminate |]. split; [discriminate |].
  apply (same_second_rows_both_kept Sample.result_later Sample.result "EUR"
           Sample.noon_later).
  - valid_datetime.
  - discriminate.
  - intros r Hr. in_rows Hr; reflexivity.
  - intros r Hr. exists Sample.noon.
    split; [valid_datetime |]. split; [in_rows Hr; reflexivity | reflexivity].
Defined.

(** X9: a currency this run did not refresh is carried over from the
    dated file: the rows written for it are the latest rows the file
    holds for it, and all of its rows when the file was itself written by
    a merge. *)
Theorem unrefreshed_currency_carried result previous_rates c :
  Output.group c result = [] ->
  Permutation
    (Output.group c (fst (Output.carry_over result (Some previous_rates))))
    (Output.group c (Output.keep_latest previous_rates)) /\
  forall earlier,
    previous_rates = Output.keep_latest earlier ->
    Permutation
      (Output.group c (fst (Output.carry_over result (Some previous_rates))))
      (Output.group c previous_rates).
Proof.
  intros Hnone. simpl.
  assert (E : Output.group c (Output.keep_latest (result ++ previous_rates))
              = Output.group c (Output.keep_latest previous_rates)).
  { rewrite !group_keep_latest, group_app, Hnone. reflexivity. }
  split.
  - rewrite E. apply Permutation_refl.
  - intros earlier ->. rewrite E, keep_latest_idempotent.
    apply Permutation_refl.
Qed.

Lemma unrefreshed_currency_carried_witness :
  Output.group "GBP" Sample.result = [] /\
  Permutation
    (Output.group "GBP"
       (fst (Output.carry_over Sample.result (Some Sample.previous_rates))))
    (Output.group "GBP" (Output.keep_latest Sample.previous_rates)) /\
  Output.group "GBP" Sample.previous_rates <> [].
Proof.
  split; [reflexivity |]. split; [| discriminate].
  apply (unrefreshed_currency_carried Sample.result Sample.previous_rates "GBP").
  reflexivity.
Defined.

(** ** From the frames to the files *)

Lemma add_columns_nil acc : Output.add_columns acc [] = acc.
Proof. reflexivity. Qed.

Lemma concat_columns frames : forall acc,
  (acc = [] \/ acc = five_columns) ->
  Forall (fun f => columns f = [] \/ columns f = five_columns) frames ->
  fold_left Output.add_columns (map columns frames) acc
  = if existsb (fun f => negb (Nat.eqb (List.length (columns f)) 0)) frames
    then five_columns else acc.
Proof.
  induction frames as [| f frames IH]; intros acc Hacc Hall; [reflexivity |].
  inversion Hall as [| ? ? Hf Hrest]; subst.
  cbn [map fold_left existsb].
  destruct Hf as [Hf | Hf]; rewrite Hf.
  - rewrite add_columns_nil. cbn [List.length Nat.eqb negb orb].
    apply IH; assumption.
  - assert (Output.add_columns acc five_columns = five_columns) as ->
      by (destruct Hacc as [-> | ->]; reflexivity).
    rewrite (IH five_columns (or_intror eq_refl) Hrest).
    cbn [five_columns List.length Nat.eqb negb orb].
    destruct (existsb _ frames); reflexivity.
Qed.

Lemma shaped_columns f :
  shaped f -> columns f = [] \/ columns f = five_columns.
Proof. intros [-> | (H & _)]; [left; reflexivity | right; exact H]. Qed.

Lemma shaped_rows frames :
  Forall shaped frames ->
  Exists (fun f => rows f <> []) frames ->
  existsb (fun f => negb (Nat.eqb (List.length (columns f)) 0)) frames = true.
Proof.
  intros Hall Hex. apply existsb_exists.
  apply Exists_exists in Hex as (f & Hf & Hrows). exists f. split; [exact Hf |].
  rewrite Forall_forall in Hall. destruct (Hall f Hf) as [-> | (Hc & _)].
  - contradiction Hrows. reflexivity.
  - rewrite Hc. reflexivity.
Qed.

Lemma finish_shaped frames target_date fs :
  Forall shaped frames ->
  Exists (fun f => rows f <> []) frames ->
  Output.finish frames target_date fs =
  (let (result, lines) :=
     Output.carry_over (map Output.to_text (flat_map rows frames))
       (fs (Output.dated_file target_date)) in
   Output.Return
     (Output.to_csv (Output.dated_file target_date) result
        (Output.to_csv Output.curves_csv result fs),
      (lines ++
       [Output.debug "Writing to output csv..." [];
        Output.debug "Writing dated copy of csv..." [];
        mk_LogRecord INFO "Finished" []])%list)).
Proof.
  intros Hall Hex. unfold Output.finish, Output.concat.
  destruct frames as [| f frames']; [inversion Hex |].
  set (frames := f :: frames') in *.
  cbn [Output.bind]. unfold Output.prefer_strings, Output.column.
  cbn [columns rows].
  rewrite (concat_columns frames [] (or_introl eq_refl)).
  - rewrite (shaped_rows frames Hall Hex). reflexivity.
  - eapply Forall_impl; [| exact Hall]. apply shaped_columns.
Qed.

(** X10: given frames that are each the empty frame or a full frame, one
    of them full, the end of the script raises nothing: it writes the same
    rows to [curves.csv] and to the dated file, leaves every other file as
    it was, and logs "Finished" last. *)
Theorem finish_writes_both_files frames target_date fs :
  Forall shaped frames ->
  Exists (fun f => rows f <> []) frames ->
  exists written lines fs',
    Output.finish frames target_date fs
      = Output.Return (fs', (lines ++ [mk_LogRecord INFO "Finished" []])%list) /\
    fs' Output.curves_csv = Some written /\
    fs' (Output.dated_file target_date) = Some written /\
    forall path, path <> Output.curves_csv ->
                 path <> Output.dated_file target_date ->
                 fs' path = fs path.
Proof.
  intros Hall Hex. rewrite (finish_shaped frames target_date fs Hall Hex).
  destruct (Output.carry_over _ _) as [result lines].
  exists result,
    (lines ++ [Output.debug "Writing to output csv..." [];
               Output.debug "Writing dated copy of csv..." []])%list.
  eexists. split; [| split; [| split]].
  - rewrite <- app_assoc. reflexivity.
  - unfold Output.to_csv. rewrite String.eqb_refl.
    destruct (Output.curves_csv =? Output.dated_file target_date)%string;
      reflexivity.
  - unfold Output.to_csv. rewrite String.eqb_refl. reflexivity.
  - intros path H1 H2. unfold Output.to_csv.
    apply String.eqb_neq in H1, H2. rewrite H1, H2. reflexivity.
Qed.

Lemma Sample_frames_shaped :
  Forall shaped [pd_DataFrame; Sample.frame "EUR" 3.4%R Sample.noon].
Proof.
  constructor; [left; reflexivity |]. constructor; [| constructor].
  right. split; [reflexivity | discriminate].
Qed.

Lemma Sample_frames_rows :
  Exists (fun f => rows f <> [])
    [pd_DataFrame; Sample.frame "EUR" 3.4%R Sample.noon].
Proof. apply Exists_cons_tl, Exists_cons_hd. discriminate. Qed.

Lemma finish_writes_both_files_witness :
  Forall shaped [pd_DataFrame; Sample.frame "EUR" 3.4%R Sample.noon] /\
  Exists (fun f => rows f <> [])
    [pd_DataFrame; Sample.frame "EUR" 3.4%R Sample.noon] /\
  exists written lines fs',
    Output.finish [pd_DataFrame; Sample.frame "EUR" 3.4%R Sample.noon]
      Sample.noon Sample.no_files
      = Output.Return (fs', (lines ++ [mk_LogRecord INFO "Finished" []])%list) /\
    fs' Output.curves_csv = Some written /\
    fs' (Output.dated_file Sample.noon) = Some written /\
    forall path, path <> Output.curves_csv ->
                 path <> Output.dated_file Sample.noon ->
                 fs' path = Sample.no_files path.
Proof.
  split; [exact Sample_frames_shaped |].
  split; [exact Sample_frames_rows |].
  exact (finish_writes_both_files _ Sample.noon Sample.no_files
           Sample_frames_shaped Sample_frames_rows).
Defined.

(** X11: on the first run of a day, when no dated file exists yet, the
    rows written are the rows of all frames, in the order the loop
    collected them, with their three date columns as text. *)
Theorem first_run_writes_all_rows frames target_date fs :
  Forall shaped frames ->
  Exists (fun f => rows f <> []) frames ->
  fs (Output.dated_file target_date) = None ->
  exists lines fs',
    Output.finish frames target_date fs = Output.Return (fs', lines) /\
    fs' (Output.dated_file target_date)
      = Some (map Output.to_text (flat_map rows frames)) /\
    fs' Output.curves_csv
      = Some (map Output.to_text (flat_map rows frames)).
Proof.
  intros Hall Hex Hnone. rewrite (finish_shaped frames target_date fs Hall Hex).
  rewrite Hnone. cbn [Output.carry_over]. eexists. eexists.
  split; [reflexivity |]. unfold Output.to_csv. rewrite String.eqb_refl.
  split; [reflexivity |].
  destruct (Output.curves_csv =? Output.dated_file target_date)%string;
    reflexivity.
Qed.

Lemma first_run_writes_all_rows_witness :
  Forall shaped [pd_DataFrame; Sample.frame "EUR" 3.4%R Sample.noon] /\
  Sample.no_files (Output.dated_file Sample.noon) = None /\
  exists lines fs',
    Output.finish [pd_DataFrame; Sample.frame "EUR" 3.4%R Sample.noon]
      Sample.noon Sample.no_files = Output.Return (fs', lines) /\
    fs' (Output.dated_file Sample.noon)
      = Some (map Output.to_text
                (flat_map rows [pd_DataFrame; Sample.frame "EUR" 3.4%R Sample.noon])) /\
    fs' Output.curves_csv
      = Some (map Output.to_text
                (flat_map rows [pd_DataFrame; Sample.frame "EUR" 3.4%R Sample.noon])).
Proof.
  split; [exact Sample_frames_shaped |]. split; [reflexivity |].
  exact (first_run_writes_all_rows _ Sample.noon Sample.no_files
           Sample_frames_shaped Sample_frames_rows eq_refl).
Defined.

(** X12: when the loop collected frames and every one of them is the
    empty frame, because each curve built this run failed, the end of the
    script stops at line 190 with [KeyError] on the column "Date", before
    any file is written. *)
Theorem only_empty_frames_KeyError frames target_date fs :
  frames <> [] ->
  Forall (fun f => f = pd_DataFrame) frames ->
  Output.finish frames target_date fs = Output.Raise (Output.KeyError "Date").
Proof.
  intros Hne Hall. unfold Output.finish, Output.concat.
  destruct frames as [| f frames']; [contradiction |].
  set (frames := f :: frames') in *.
  cbn [Output.bind]. unfold Output.prefer_strings, Output.column.
  cbn [columns].
  rewrite (concat_columns frames [] (or_introl eq_refl)).
  - assert (existsb (fun f => negb (Nat.eqb (List.length (columns f)) 0)) frames
            = false) as ->.
    { apply not_true_is_false. intros H. apply existsb_exists in H as (g & Hg & H).
      rewrite Forall_forall in Hall. rewrite (Hall g Hg) in H. discriminate H. }
    reflexivity.
  - eapply Forall_impl; [| exact Hall]. intros g ->. left. reflexivity.
Qed.

Lemma only_empty_frames_KeyError_witness :
  [pd_DataFrame; pd_DataFrame] <> [] /\
  Output.finish [pd_DataFrame; pd_DataFrame] Sample.noon Sample.no_files
    = Output.Raise (Output.KeyError "Date").
Proof.
  split; [discriminate |].
  apply (only_empty_frames_KeyError [pd_DataFrame; pd_DataFrame] Sample.noon
           Sample.no_files); [discriminate |].
  repeat constructor.
Defined.

(** ** More on the currency loop *)

Section LoopMore.

Variable lib : ql.Library.
Variable df : list Script.QuoteRow.
Variable config_update_time : list Script.UpdateTime.
Variable current_hour : Z.
Variable target_date : Py.datetime.
Variable clock : string -> Py.datetime.

Let turn := Script.turn lib df config_update_time current_hour target_date clock.
Let currency_loop :=
  Script.currency_loop lib df config_update_time current_hour target_date clock.
Let run (ccy : string) :=
  fwd_curve lib (Script.values (Script.quotes_of df ccy))
    (map Script.Term (Script.quotes_of df ccy))
    (map Script.Unit (Script.quotes_of df ccy)) target_date ccy (clock ccy).

Lemma turn_no_window ccy frames w :
  Script.window_of config_update_time ccy = [] ->
  turn ccy frames w = (Py.Raise Py.IndexError, w).
Proof.
  intros Hw. unfold turn, Script.turn. rewrite Hw. reflexivity.
Qed.

Lemma turn_outside_window ccy frames w u us :
  Script.window_of config_update_time ccy = u :: us ->
  (Script.FirstUpdate u <=? current_hour) &&
  (current_hour <? Script.LastUpdate u) = false ->
  turn ccy frames w
  = (Py.Return frames, checked config_update_time current_hour ccy w).
Proof.
  intros Hw Hout. unfold turn, Script.turn, checked. rewrite Hw.
  cbn [map Script.first getitem nth_error]. cbv [mbind ret logging].
  rewrite Hout. reflexivity.
Qed.

Lemma turn_no_quotes ccy frames w :
  in_window config_update_time current_hour ccy = true ->
  Script.quotes_of df ccy = [] ->
  turn ccy frames w
  = (Py.Raise Py.IndexError, checked config_update_time current_hour ccy w).
Proof.
  unfold in_window, checked. intros Hwin Hq. unfold turn, Script.turn.
  destruct (Script.window_of config_update_time ccy) as [| u us];
    [discriminate |].
  cbn [map Script.first getitem nth_error]. cbv [mbind ret logging].
  rewrite Hwin, Hq. reflexivity.
Qed.

(** What a turn that returns has done. *)
Lemma turn_Return ccy frames w frames' w' :
  turn ccy frames w = (Py.Return frames', w') ->
  frames' = frames \/
  exists fwds,
    run ccy (checked config_update_time current_hour ccy w)
      = (Py.Return fwds, w') /\
    frames' = (frames ++ [fwds])%list.
Proof.
  intros H.
  destruct (Script.window_of config_update_time ccy) as [| u us] eqn:Hw.
  { rewrite (turn_no_window _ _ _ Hw) in H. discriminate H. }
  destruct ((Script.FirstUpdate u <=? current_hour) &&
            (current_hour <? Script.LastUpdate u)) eqn:Hin.
  2:{ rewrite (turn_outside_window _ _ _ _ _ Hw Hin) in H.
      inversion H. left. reflexivity. }
  assert (Hwin : in_window config_update_time current_hour ccy = true)
    by (unfold in_window; rewrite Hw; exact Hin).
  destruct (Script.quotes_of df ccy) as [| q qs] eqn:Hq.
  { rewrite (turn_no_quotes _ _ _ Hwin Hq) in H. discriminate H. }
  destruct (Z.ltb_spec 0 (Script.isnull_sum (Script.quotes_of df ccy)))
    as [Hna | Hna].
  - destruct (turn_null_quote lib df config_update_time current_hour
                target_date clock ccy frames w Hwin Hna) as (w1 & E & _).
    fold turn in E. rewrite E in H. inversion H. left. reflexivity.
  - assert (Hzero : Script.isnull_sum (Script.quotes_of df ccy) = 0).
    { unfold Script.isnull_sum in *. lia. }
    assert (Hne : Script.quotes_of df ccy <> []) by (rewrite Hq; discriminate).
    pose proof (turn_refresh lib df config_update_time current_hour
                  target_date clock ccy frames w Hwin Hne Hzero) as E.
    fold turn in E. rewrite E in H. fold (run ccy) in H.
    unfold mbind in H.
    destruct (run ccy (checked config_update_time current_hour ccy w))
      as [[fwds | e] w1]; [| discriminate H].
    cbv [ret] in H. inversion H; subst. right. exists fwds. auto.
Qed.

Lemma turn_passed_over ccy frames w :
  passed_over df config_update_time current_hour ccy = true ->
  exists w', turn ccy frames w = (Py.Return frames, w') /\
             settings w' = settings w.
Proof.
  unfold passed_over. intros H.
  destruct (Script.window_of config_update_time ccy) as [| u us] eqn:Hw;
    [discriminate |].
  destruct ((Script.FirstUpdate u <=? current_hour) &&
            (current_hour <? Script.LastUpdate u)) eqn:Hin.
  - simpl in H. apply Z.ltb_lt in H.
    apply (turn_null_quote lib df config_update_time current_hour
             target_date clock ccy frames w); [| exact H].
    unfold in_window. rewrite Hw. exact Hin.
  - rewrite (turn_outside_window _ _ _ _ _ Hw Hin). eexists. split; [reflexivity |].
    unfold checked. rewrite Hw. reflexivity.
Qed.

Lemma currency_loop_passed_over currencies : forall frames w,
  forallb (passed_over df config_update_time current_hour) currencies = true ->
  exists w', currency_loop currencies frames w = (Py.Return frames, w') /\
             settings w' = settings w.
Proof.
  induction currencies as [| ccy rest IH]; intros frames w H.
  - exists w. split; reflexivity.
  - simpl in H. apply andb_true_iff in H as (Hc & Hrest).
    destruct (turn_passed_over ccy frames w Hc) as (w1 & E & Hs).
    destruct (IH frames w1 Hrest) as (w2 & E2 & Hs2).
    exists w2. split; [| congruence].
    unfold currency_loop in *. simpl. fold turn.
    rewrite (mbind_Return _ _ _ _ _ E). exact E2.
Qed.

Lemma currency_loop_appends currencies : forall frames w out w',
  currency_loop currencies frames w = (Py.Return out, w') ->
  exists added,
    out = (frames ++ added)%list /\
    (List.length added <= List.length currencies)%nat /\
    Forall (fun fwds => exists ccy w0 w1,
              In ccy currencies /\ run ccy w0 = (Py.Return fwds, w1)) added.
Proof.
  induction currencies as [| ccy rest IH]; intros frames w out w' H.
  - cbv in H. inversion H. exists []. rewrite app_nil_r. auto.
  - unfold currency_loop in H. simpl in H. fold turn in H.
    apply mbind_Return_inv in H as (frames1 & w1 & Hturn & Hrest).
    destruct (IH _ _ _ _ Hrest) as (added & -> & Hlen & Hall).
    assert (Hall' : Forall (fun fwds => exists ccy0 w0 w2,
                              In ccy0 (ccy :: rest) /\
                              run ccy0 w0 = (Py.Return fwds, w2)) added).
    { eapply Forall_impl; [| exact Hall].
      intros fwds (c & w0 & w2 & Hc & E). exists c, w0, w2.
      split; [right; exact Hc | exact E]. }
    destruct (turn_Return _ _ _ _ _ Hturn) as [-> | (fwds & Hrun & ->)].
    + exists added. split; [reflexivity |]. split; [simpl; lia | exact Hall'].
    + exists (fwds :: added). split; [rewrite <- app_assoc; reflexivity |].
      split; [simpl; lia |]. constructor; [| exact Hall'].
      exists ccy, (checked config_update_time current_hour ccy w), w1.
      split; [left; reflexivity | exact Hrun].
Qed.

End LoopMore.

(** X13: when every currency is passed over, being outside its window or
    short of a price, the loop returns without a frame and without
    touching the settings, and the end of the script then stops at line
    184 with [ValueError]: nothing is written and nothing is carried
    over. *)
Theorem nothing_refreshed_ValueError lib df config_update_time current_hour
  target_date clock currencies w fs :
  forallb (passed_over df config_update_time current_hour) currencies = true ->
  (exists w',
      Script.currency_loop lib df config_update_time current_hour target_date
        clock currencies [] w = (Py.Return [], w') /\
      settings w' = settings w) /\
  Output.finish [] target_date fs = Output.Raise Output.ValueError.
Proof.
  intros H. split; [| reflexivity].
  apply currency_loop_passed_over, H.
Qed.

Lemma nothing_refreshed_ValueError_witness :
  forallb (passed_over Demo.df Demo.config_update_time 18) ["EUR"; "JPY"] = true /\
  (exists w',
      Script.currency_loop Demo.lib Demo.df Demo.config_update_time 18 Demo.t0
        Demo.clock ["EUR"; "JPY"] [] Demo.world0 = (Py.Return [], w') /\
      settings w' = settings Demo.world0) /\
  Output.finish [] Demo.t0 Sample.no_files = Output.Raise Output.ValueError.
Proof.
  split; [reflexivity |].
  apply (nothing_refreshed_ValueError Demo.lib Demo.df Demo.config_update_time
           18 Demo.t0 Demo.clock ["EUR"; "JPY"] Demo.world0 Sample.no_files).
  reflexivity.
Defined.

(** X14: a currency without a row in the update times, and a currency
    inside its window without any quote row, end the loop with
    [IndexError]: the currencies after it are not visited. *)
Theorem missing_rows_IndexError lib df config_update_time current_hour
  target_date clock ccy rest frames w :
  (Script.window_of config_update_time ccy = [] ->
   Script.currency_loop lib df config_update_time current_hour target_date
     clock (ccy :: rest) frames w = (Py.Raise Py.IndexError, w)) /\
  (in_window config_update_time current_hour ccy = true ->
   Script.quotes_of df ccy = [] ->
   fst (Script.currency_loop lib df config_update_time current_hour target_date
          clock (ccy :: rest) frames w) = Py.Raise Py.IndexError).
Proof.
  split.
  - intros Hw. simpl. apply mbind_Raise. apply turn_no_window, Hw.
  - intros Hwin Hq. simpl.
    rewrite (mbind_Raise _ _ _ _ _
               (turn_no_quotes lib df config_update_time current_hour
                  target_date clock ccy frames w Hwin Hq)).
    reflexivity.
Qed.

Lemma missing_rows_IndexError_witness :
  Script.currency_loop Demo.lib Demo.df Demo.config_update_time
    Demo.current_hour Demo.t0 Demo.clock ("CHF" :: ["EUR"]) [] Demo.world0
    = (Py.Raise Py.IndexError, Demo.world0) /\
  fst (Script.currency_loop Demo.lib Demo.df [Script.mk_UpdateTime "CAD" 7 18]
         Demo.current_hour Demo.t0 Demo.clock ("CAD" :: ["EUR"]) [] Demo.world0)
    = Py.Raise Py.IndexError.
Proof.
  split.
  - apply (missing_rows_IndexError Demo.lib Demo.df Demo.config_update_time
             Demo.current_hour Demo.t0 Demo.clock "CHF" ["EUR"] [] Demo.world0).
    reflexivity.
  - apply (missing_rows_IndexError Demo.lib Demo.df
             [Script.mk_UpdateTime "CAD" 7 18] Demo.current_hour Demo.t0
             Demo.clock "CAD" ["EUR"] [] Demo.world0); reflexivity.
Defined.

(** X15: when the loop returns, the frames it was given are still there,
    in front and in order, followed by at most one frame per currency,
    each of them a frame that [fwd_curve] returned for one of the
    currencies on its quotes: the loop drops and reorders nothing. *)
Theorem loop_appends_frames lib df config_update_time current_hour
  target_date clock currencies frames w out w' :
  Script.currency_loop lib df config_update_time current_hour target_date
    clock currencies frames w = (Py.Return out, w') ->
  exists added,
    out = (frames ++ added)%list /\
    (List.length added <= List.length currencies)%nat /\
    Forall (fun fwds => exists ccy w0 w1,
              In ccy currencies /\
              fwd_curve lib (Script.values (Script.quotes_of df ccy))
                (map Script.Term (Script.quotes_of df ccy))
                (map Script.Unit (Script.quotes_of df ccy))
                target_date ccy (clock ccy) w0 = (Py.Return fwds, w1)) added.
Proof. apply currency_loop_appends. Qed.

Lemma Demo_loop_JPY_EUR :
  Script.currency_loop Demo.lib Demo.df Demo.config_update_time
    Demo.current_hour Demo.t0 Demo.clock ["JPY"; "EUR"] [pd_DataFrame]
    Demo.world0
  = (Py.Return [pd_DataFrame; Demo.frame],
     snd (Script.currency_loop Demo.lib Demo.df Demo.config_update_time
            Demo.current_hour Demo.t0 Demo.clock ["JPY"; "EUR"] [pd_DataFrame]
            Demo.world0)).
Proof.
  rewrite (surjective_pairing (Script.currency_loop _ _ _ _ _ _ _ _ _)) at 1.
  f_equal; try run_demo.
Qed.

Lemma loop_appends_frames_witness :
  exists added,
    [pd_DataFrame; Demo.frame] = ([pd_DataFrame] ++ added)%list /\
    (List.length added <= List.length ["JPY"; "EUR"])%nat /\
    Forall (fun fwds => exists ccy w0 w1,
              In ccy ["JPY"; "EUR"] /\
              fwd_curve Demo.lib (Script.values (Script.quotes_of Demo.df ccy))
                (map Script.Term (Script.quotes_of Demo.df ccy))
                (map Script.Unit (Script.quotes_of Demo.df ccy))
                Demo.t0 ccy (Demo.clock ccy) w0 = (Py.Return fwds, w1)) added.
Proof.
  exact (loop_appends_frames Demo.lib Demo.df Demo.config_update_time
           Demo.current_hour Demo.t0 Demo.clock ["JPY"; "EUR"] [pd_DataFrame]
           Demo.world0 _ _ Demo_loop_JPY_EUR).
Defined.

(** ** More on [fwd_curve] *)

(** X16: the currency codes [fwd_curve] accepts are exactly EUR, GBP,
    USD, JPY, AUD and CAD, in capitals, and the overnight index built for
    a currency carries the currency's own code, settlement days, calendar
    and day count. *)
Theorem supported_currencies currency :
  (currency_convention currency <> None <->
   In currency ["EUR"; "GBP"; "USD"; "JPY"; "AUD"; "CAD"]) /\
  forall conv, currency_convention currency = Some conv ->
    ql.familyName (index conv) = currency /\
    ql.fixingDays (index conv) = settlement_days conv /\
    ql.fixingCalendar (index conv) = calendar conv /\
    ql.dayCounter (index conv) = day_count conv.
Proof.
  unfold currency_convention.
  destruct (String.eqb_spec currency "EUR") as [-> | N1].
  { split; [split; [simpl; tauto | discriminate] |].
    intros conv H. inversion H. repeat split. }
  destruct (String.eqb_spec currency "GBP") as [-> | N2].
  { split; [split; [simpl; tauto | discriminate] |].
    intros conv H. inversion H. repeat split. }
  destruct (String.eqb_spec currency "USD") as [-> | N3].
  { split; [split; [simpl; tauto | discriminate] |].
    intros conv H. inversion H. repeat split. }
  destruct (String.eqb_spec currency "JPY") as [-> | N4].
  { split; [split; [simpl; tauto | discriminate] |].
    intros conv H. inversion H. repeat split. }
  destruct (String.eqb_spec currency "AUD") as [-> | N5].
  { split; [split; [simpl; tauto | discriminate] |].
    intros conv H. inversion H. repeat split. }
  destruct (String.eqb_spec currency "CAD") as [-> | N6].
  { split; [split; [simpl; tauto | discriminate] |].
    intros conv H. inversion H. repeat split. }
  split; [| discriminate].
  split; [intros H; contradiction H; reflexivity |].
  simpl. intros [H | [H | [H | [H | [H | [H | []]]]]]]; congruence.
Qed.

Lemma supported_currencies_witness :
  currency_convention "GBP" <> None /\
  ql.familyName (index (convention_of "GBP" 0 ql.GBPCurrency ql.UnitedKingdom
                          ql.Actual365Fixed)) = "GBP" /\
  ~ In "gbp" ["EUR"; "GBP"; "USD"; "JPY"; "AUD"; "CAD"] /\
  currency_convention "gbp" = None.
Proof.
  destruct (supported_currencies "GBP") as (Hiff & Hindex).
  split; [apply Hiff; simpl; tauto |].
  split; [apply (Hindex _ eq_refl) |].
  destruct (supported_currencies "gbp") as (Hiff' & _).
  assert (Hnot : ~ In "gbp" ["EUR"; "GBP"; "USD"; "JPY"; "AUD"; "CAD"]).
  { simpl. intros [H | [H | [H | [H | [H | [H | []]]]]]]; discriminate H. }
  split; [exact Hnot |].
  destruct (currency_convention "gbp") eqn:E; [| reflexivity].
  contradiction Hnot. apply Hiff'. discriminate.
Defined.

Section FwdMore.

Variable lib : ql.Library.

Lemma helpers_loop_build conv rates terms units n : forall a acc w hs w',
  helpers_loop lib conv rates terms units (seq a n) acc w = (Py.Return hs, w') ->
  exists new,
    hs = (acc ++ new)%list /\ List.length new = n /\
    forall j h, nth_error new j = Some h ->
      quote_helper lib conv rates terms units (a + j) w = (Py.Return h, w).
Proof.
  induction n as [| n IH]; intros a acc w hs w' H; simpl in H.
  - cbv [ret] in H. inversion H. exists []. rewrite app_nil_r.
    split; [reflexivity |]. split; [reflexivity |].
    intros [| j] h Hj; discriminate Hj.
  - apply mbind_Return_inv in H as (h0 & w1 & Hh0 & H).
    destruct (quote_helper_Return _ _ _ _ _ _ _ _ _ Hh0) as [-> _].
    destruct (IH _ _ _ _ _ H) as (new & -> & Hlen & Hnth).
    exists (h0 :: new). split; [rewrite <- app_assoc; reflexivity |].
    split; [simpl; lia |].
    intros [| j] h Hj; simpl in Hj.
    + inversion Hj; subst. rewrite Nat.add_0_r. exact Hh0.
    + rewrite <- (Hnth j h Hj). f_equal. lia.
Qed.

Lemma nth_error_firstn_lt {A : Type} (l : list A) : forall n i,
  (i < n)%nat -> nth_error (firstn n l) i = nth_error l i.
Proof.
  induction l as [| x l IH]; intros [| n] [| i] H; simpl;
    try reflexivity; try lia.
  apply IH. lia.
Qed.

Lemma quote_helper_firstn conv rates terms units n i :
  (i < n)%nat ->
  quote_helper lib conv rates (firstn n terms) (firstn n units) i
  = quote_helper lib conv rates terms units i.
Proof.
  intros H. unfold quote_helper, quote_tenor, getitem.
  rewrite !(nth_error_firstn_lt _ n i H). reflexivity.
Qed.

Lemma helpers_loop_firstn conv rates terms units n range : forall acc w,
  Forall (fun i => (i < n)%nat) range ->
  helpers_loop lib conv rates (firstn n terms) (firstn n units) range acc w
  = helpers_loop lib conv rates terms units range acc w.
Proof.
  induction range as [| i range IH]; intros acc w H; [reflexivity |].
  inversion H as [| ? ? Hi Hrest]; subst. simpl.
  unfold mbind. rewrite (quote_helper_firstn conv rates terms units n i Hi).
  destruct (quote_helper lib conv rates terms units i w) as [[h | e] w1];
    [apply IH, Hrest | reflexivity].
Qed.

(** X18: [fwd_curve] reads the first [len(rates)] entries of [terms] and
    [units] and nothing beyond them: longer arrays give the same outcome
    and the same log as the arrays cut to that length. *)
Theorem extra_entries_ignored rates terms units eval_date currency now w :
  fwd_curve lib rates (firstn (List.length rates) terms)
    (firstn (List.length rates) units) eval_date currency now w
  = fwd_curve lib rates terms units eval_date currency now w.
Proof.
  destruct (currency_convention currency) as [conv |] eqn:Hc.
  2:{ rewrite !fwd_curve_unsupported by exact Hc. reflexivity. }
  rewrite !(fwd_curve_supported _ _ _ _ _ _ _ _ _ Hc).
  unfold mbind. rewrite helpers_loop_firstn; [reflexivity |].
  apply Forall_forall. intros i Hi. apply in_seq in Hi. lia.
Qed.

Lemma quote_tenor_no_unit terms units i w :
  nth_error units i = None ->
  quote_tenor terms units i w = (Py.Raise Py.IndexError, w).
Proof.
  intros H. unfold quote_tenor, getitem. rewrite H. reflexivity.
Qed.

Lemma quote_tenor_no_term terms units i u tu w :
  nth_error units i = Some u ->
  time_unit_of (Py.upper u) = Some tu ->
  nth_error terms i = None ->
  quote_tenor terms units i w = (Py.Raise Py.IndexError, w).
Proof.
  intros Hu Htu Hc. unfold quote_tenor.
  rewrite (mbind_Return _ _ _ _ _ (getitem_Some _ _ _ w Hu)).
  rewrite Htu. unfold mbind at 1. cbv [ret].
  unfold getitem. rewrite Hc. reflexivity.
Qed.

Lemma quote_helper_library_error conv rates terms units i w p r what :
  quote_tenor terms units i w = (Py.Return p, w) ->
  nth_error rates i = Some r ->
  ql.OISRateHelper lib (settings w) (settlement_days conv) p (r / 100)%R
    (index conv) = ql.Error what ->
  quote_helper lib conv rates terms units i w
  = (Py.Raise (Py.RuntimeError what), w).
Proof.
  intros Hp Hr He. unfold quote_helper.
  rewrite (mbind_Return _ _ _ _ _ Hp).
  rewrite (mbind_Return _ _ _ _ _ (getitem_Some _ _ _ w Hr)).
  unfold ql_call. rewrite He. reflexivity.
Qed.

Lemma map_result_Error {A B : Type} (f : A -> ql.result B) l d what :
  In d l -> f d = ql.Error what ->
  exists what', ql.map_result f l = ql.Error what'.
Proof.
  induction l as [| a l IH]; intros Hin Hd; [contradiction |]. simpl.
  destruct (f a) as [b | wa] eqn:Ea; simpl; [| eexists; reflexivity].
  destruct Hin as [-> | Hin]; [congruence |].
  destruct (IH Hin Hd) as (what' & ->). simpl. eexists. reflexivity.
Qed.



End FwdMore.

(** X17: a call that returns has built exactly one helper per quote, in
    the order of the quotes and without sorting them: helper [i] is the
    one the library gave for the tenor of quote [i] and the rate
    [rates[i] / 100], and this list is what the curve was built from. *)
Theorem helpers_one_per_quote lib rates terms units eval_date currency now w df w' :
  fwd_curve lib rates terms units eval_date currency now w = (Py.Return df, w') ->
  let s := ql.mk_Settings (ql.from_date eval_date) in
  exists conv hs,
    currency_convention currency = Some conv /\
    List.length hs = List.length rates /\
    (forall i h, nth_error hs i = Some h ->
       exists p r,
         fst (quote_tenor terms units i (started eval_date currency w))
           = Py.Return p /\
         nth_error rates i = Some r /\
         ql.OISRateHelper lib s (settlement_days conv) p (r / 100)%R (index conv)
           = ql.Ok h) /\
    (try_body lib s conv hs currency now = ql.Ok df \/
     exists what, try_body lib s conv hs currency now = ql.Error what /\
                  df = pd_DataFrame).
Proof.
  intros H s.
  destruct (fwd_curve_Return _ _ _ _ _ _ _ _ _ _ H) as (conv & hs & Hc & Hloop & Htry).
  exists conv, hs. split; [exact Hc |].
  destruct (helpers_loop_build lib _ _ _ _ _ _ _ _ _ _ Hloop)
    as (new & -> & Hlen & Hnth).
  split; [exact Hlen |]. split; [| exact Htry].
  intros i h Hi. specialize (Hnth i h Hi). simpl in Hnth.
  destruct (quote_helper_Return _ _ _ _ _ _ _ _ _ Hnth) as (_ & p & r & Hp & Hr & Hh).
  exists p, r. rewrite Hp. auto.
Qed.

Lemma helpers_one_per_quote_witness :
  let s := ql.mk_Settings (ql.from_date Demo.t0) in
  exists conv hs,
    currency_convention "EUR" = Some conv /\
    List.length hs = List.length Demo.rates /\
    (forall i h, nth_error hs i = Some h ->
       exists p r,
         fst (quote_tenor Demo.terms Demo.units i (started Demo.t0 "EUR" Demo.world0))
           = Py.Return p /\
         nth_error Demo.rates i = Some r /\
         ql.OISRateHelper Demo.lib s (settlement_days conv) p (r / 100)%R
           (index conv) = ql.Ok h) /\
    (try_body Demo.lib s conv hs "EUR" Demo.t1 = ql.Ok Demo.frame \/
     exists what, try_body Demo.lib s conv hs "EUR" Demo.t1 = ql.Error what /\
                  Demo.frame = pd_DataFrame).
Proof.
  exact (helpers_one_per_quote Demo.lib Demo.rates Demo.terms Demo.units
           Demo.t0 "EUR" Demo.t1 Demo.world0 Demo.frame Demo.world1 Demo_run).
Defined.

(** X19: when [units] or [terms] is shorter than [rates], the call ends
    with [IndexError] at the first index that is missing, provided the
    quotes before it gave their helpers; the exception is not caught. *)
Theorem short_columns_IndexError lib rates terms units eval_date currency now w conv k :
  currency_convention currency = Some conv ->
  (k < List.length rates)%nat ->
  (forall j, (j < k)%nat -> exists h,
      fst (quote_helper lib conv rates terms units j
             (started eval_date currency w)) = Py.Return h) ->
  (nth_error units k = None \/
   exists u tu, nth_error units k = Some u /\
                time_unit_of (Py.upper u) = Some tu /\
                nth_error terms k = None) ->
  fwd_curve lib rates terms units eval_date currency now w
  = (Py.Raise Py.IndexError, started eval_date currency w).
Proof.
  intros Hc Hk Hbefore Hshort.
  apply (fwd_curve_first_failure lib rates terms units eval_date currency now w
           conv k _ _ Hc Hk Hbefore).
  apply quote_helper_Raise.
  destruct Hshort as [Hu | (u & tu & Hu & Htu & Ht)].
  - apply quote_tenor_no_unit, Hu.
  - eapply quote_tenor_no_term; eassumption.
Qed.

Lemma short_columns_IndexError_witness :
  fwd_curve Demo.lib Demo.rates [Py.CInt 1] Demo.units Demo.t0 "EUR" Demo.t1
    Demo.world0
  = (Py.Raise Py.IndexError, started Demo.t0 "EUR" Demo.world0).
Proof.
  apply (short_columns_IndexError Demo.lib Demo.rates [Py.CInt 1] Demo.units
           Demo.t0 "EUR" Demo.t1 Demo.world0
           (convention_of "EUR" 2 ql.EURCurrency ql.TARGET ql.Actual360) 1%nat).
  - reflexivity.
  - simpl. lia.
  - intros j Hj. assert (j = 0%nat) as -> by lia. eexists. run_demo.
  - right. exists "y", ql.Years. repeat split.
Defined.

(** X20: an error of the library while it builds the helper of a quote
    (line 82) is outside the [try]: it leaves [fwd_curve] as a
    [RuntimeError] with the library's message, and no frame is returned. *)
Theorem helper_error_escapes lib rates terms units eval_date currency now w conv k p r what :
  currency_convention currency = Some conv ->
  (k < List.length rates)%nat ->
  (forall j, (j < k)%nat -> exists h,
      fst (quote_helper lib conv rates terms units j
             (started eval_date currency w)) = Py.Return h) ->
  quote_tenor terms units k (started eval_date currency w)
    = (Py.Return p, started eval_date currency w) ->
  nth_error rates k = Some r ->
  ql.OISRateHelper lib (ql.mk_Settings (ql.from_date eval_date))
    (settlement_days conv) p (r / 100)%R (index conv) = ql.Error what ->
  fwd_curve lib rates terms units eval_date currency now w
  = (Py.Raise (Py.RuntimeError what), started eval_date currency w).
Proof.
  intros Hc Hk Hbefore Hp Hr He.
  apply (fwd_curve_first_failure lib rates terms units eval_date currency now w
           conv k _ _ Hc Hk Hbefore).
  eapply quote_helper_library_error; eassumption.
Qed.

Lemma helper_error_escapes_witness :
  fwd_curve Demo.lib [3.5%R] [Py.CInt (-2)] ["Y"] Demo.t0 "EUR" Demo.t1
    Demo.world0
  = (Py.Raise (Py.RuntimeError "non-positive swap tenor"),
     started Demo.t0 "EUR" Demo.world0).
Proof.
  apply (helper_error_escapes Demo.lib [3.5%R] [Py.CInt (-2)] ["Y"] Demo.t0
           "EUR" Demo.t1 Demo.world0
           (convention_of "EUR" 2 ql.EURCurrency ql.TARGET ql.Actual360) 0%nat
           (ql.mk_Period (-2) ql.Years) 3.5%R).
  - reflexivity.
  - simpl. lia.
  - intros j Hj. lia.
  - reflexivity.
  - reflexivity.
  - reflexivity.
Defined.

(** X21: the frame is all or nothing: when the curve was built and the
    schedule drawn, one schedule date whose forward rate the library
    refuses is enough for the call to return the empty frame, without
    the rows of the dates before it. *)
Theorem no_partial_frame lib rates terms units eval_date currency now w
  conv hs curve ref_date last_day all_days d what :
  let s := ql.mk_Settings (ql.from_date eval_date) in
  currency_convention currency = Some conv ->
  helpers_loop lib conv rates terms units (seq 0 (List.length rates)) []
    (started eval_date currency w)
    = (Py.Return hs, started eval_date currency w) ->
  ql.PiecewiseLogCubicDiscount lib s 0 (calendar conv) hs (day_count conv)
    = ql.Ok curve ->
  ql.referenceDate lib s curve = ql.Ok ref_date ->
  ql.advance lib (calendar conv) ref_date 3 ql.Years = ql.Ok last_day ->
  ql.MakeSchedule lib ref_date last_day (ql.mk_Period 1 ql.Days) = ql.Ok all_days ->
  In d all_days ->
  rate_fwd lib s conv curve d = ql.Error what ->
  fst (fwd_curve lib rates terms units eval_date currency now w)
    = Py.Return pd_DataFrame.
Proof.
  intros s Hc Hhs Hcurve Href Hlast Hsched Hd Hrate.
  destruct (map_result_Error (rate_fwd lib s conv curve) all_days d what Hd Hrate)
    as (what' & Hmap).
  apply (fwd_curve_library_error lib rates terms units eval_date currency now w
           conv hs what' Hc Hhs).
  fold s. unfold try_body. rewrite Hcurve. simpl. rewrite Href. simpl.
  rewrite Hlast. simpl. rewrite Hsched. simpl. rewrite Hmap. reflexivity.
Qed.

Lemma no_partial_frame_witness :
  In (ql.mk_Date 2025 1 1) Sample.all_days /\
  rate_fwd Demo.lib (ql.mk_Settings (ql.from_date Demo.t0))
    (convention_of "EUR" 2 ql.EURCurrency ql.TARGET ql.Actual360)
    (Demo.mk_Curve (ql.mk_Date 2023 3 6) (ql.mk_Date 2024 3 8) (3.5 / 100)%R
       ql.Actual360)
    (ql.mk_Date 2023 3 6) <> ql.Error "date outside the curve" /\
  fst (fwd_curve Demo.lib [3.5%R] [Py.CInt 1] ["Y"] Demo.t0 "EUR" Demo.t1
         Demo.world0) = Py.Return pd_DataFrame.
Proof.
  assert (Hin : In (ql.mk_Date 2025 1 1) Sample.all_days)
    by (apply (nth_error_In _ 667); reflexivity).
  split; [exact Hin |]. split; [discriminate |].
  apply (no_partial_frame Demo.lib [3.5%R] [Py.CInt 1] ["Y"] Demo.t0 "EUR"
           Demo.t1 Demo.world0
           (convention_of "EUR" 2 ql.EURCurrency ql.TARGET ql.Actual360)
           [Demo.mk_RateHelper (ql.mk_Date 2024 3 8) (3.5 / 100)%R]
           (Demo.mk_Curve (ql.mk_Date 2023 3 6) (ql.mk_Date 2024 3 8)
              (3.5 / 100)%R ql.Actual360)
           (ql.mk_Date 2023 3 6) (ql.mk_Date 2026 3 6) Sample.all_days
           (ql.mk_Date 2025 1 1) "date outside the curve").
  - reflexivity.
  - run_demo.
  - run_demo.
  - reflexivity.
  - reflexivity.
  - reflexivity.
  - exact Hin.
  - reflexivity.
Defined.

